(** * Coordinate extractor: the parser [extrair_coordenadas] and the row
      expander [expandir_dataframe] of [src/app.py]

    Python values are embedded as follows.
    - A [str] is the list of its Unicode code points ([N]).
    - A [float] is an IEEE 754 binary64 value, [spec_float] with the
      operations of the standard library's [SpecFloat] at precision 53.
    - Exceptions are explicit: a computation returns [Ok v] or [Raise e].
    - A [dict] is the list of its items in the order of insertion.  The
      dictionaries the expander builds are objects of a heap, which is
      threaded through its loops; a pandas row ([Series]) is the list of
      its (label, value) pairs; a [DataFrame] is its column labels and
      its rows of values.
    - The parts of the Python runtime that are tables of the Unicode
      database ([str.upper], the decimal digits behind [\d], [int] and
      [float]) and [repr] of a float are parameters of the development,
      and so are the types pandas chooses for the values it stores. *)

From Stdlib Require Import ZArith NArith List String Ascii Bool Lia.
From Stdlib Require Import Floats.SpecFloat.
From stdpp Require Import list sets.

Local Open Scope string_scope.
Local Open Scope list_scope.

(** ** Strings *)

Abbreviation char := N (only parsing).
Abbreviation str := (list N) (only parsing).

Module Utf8.

(** String literals of this file are UTF-8; [decode] gives the code points
    a Python source literal with the same bytes denotes. *)
Fixpoint decode (bs : list N) : str :=
  match bs with
  | [] => []
  | b0 :: bs1 =>
    if (b0 <? 128)%N then b0 :: decode bs1
    else if (b0 <? 224)%N then
      match bs1 with
      | b1 :: bs2 => ((b0 - 192) * 64 + (b1 - 128))%N :: decode bs2
      | _ => []
      end
    else if (b0 <? 240)%N then
      match bs1 with
      | b1 :: b2 :: bs3 =>
        ((b0 - 224) * 4096 + (b1 - 128) * 64 + (b2 - 128))%N :: decode bs3
      | _ => []
      end
    else
      match bs1 with
      | b1 :: b2 :: b3 :: bs4 =>
        ((b0 - 240) * 262144 + (b1 - 128) * 4096 + (b2 - 128) * 64
         + (b3 - 128))%N :: decode bs4
      | _ => []
      end
  end.

Definition bytes (s : string) : list N :=
  List.map N_of_ascii (list_ascii_of_string s).

End Utf8.

(** [u "..."] is the Python string written with the same characters. *)
Definition u (s : string) : str := Utf8.decode (Utf8.bytes s).

(** The double quote, which a literal of this file cannot hold. *)
Definition dquote : str := [34%N].

(** ** Results and exceptions *)

Inductive exn :=
| ValueError
| AttributeError
| KeyError (key : str).

Inductive result (A : Type) :=
| Ok (a : A)
| Raise (e : exn).
Arguments Ok {A} a.
Arguments Raise {A} e.

#[global] Instance result_bind : MBind result := fun A B k r =>
  match r with
  | Ok a => k a
  | Raise e => Raise e
  end.

(** ** Floats: binary64 *)

Abbreviation float := spec_float (only parsing).

Module F.
Definition prec : Z := 53.
Definition emax : Z := 1024.
Definition add : float -> float -> float := SFadd prec emax.
Definition div : float -> float -> float := SFdiv prec emax.
Definition opp : float -> float := SFopp.
Definition ltb : float -> float -> bool := SFltb.
Definition leb : float -> float -> bool := SFleb.
Definition zero : float := S754_zero false.

(** An [int] as the nearest float (exact below [2^53]). *)
Definition of_int (z : Z) : float := binary_normalize prec emax z 0 false.

(** The float nearest to [n / 10^k], ties to even: what [float] returns
    for the decimal numeral with digits [n] and [k] digits after the
    point. *)
Definition of_decimal (n : N) (k : nat) : float :=
  match n with
  | N0 => zero
  | Npos p => SFdiv prec emax (S754_finite false p 0)
                (S754_finite false (Z.to_pos (10 ^ Z.of_nat k)) 0)
  end.

(** The sign bit of a float that is a number. *)
Definition has_sign (s : bool) (f : float) : Prop :=
  match f with
  | S754_zero s' | S754_infinity s' | S754_finite s' _ _ => s' = s
  | S754_nan => False
  end.
End F.

(** ** The runtime's tables

    [uni_upper c] is the full upper-case mapping of the code point [c]
    (one to three code points), [uni_decimal c] the value of [c] when it
    is a decimal digit (category Nd), and [float_repr] is [repr] of a
    float.  They belong to the Python runtime, not to the program. *)
Class PyRuntime := {
  uni_upper : char -> str;
  uni_decimal : char -> option N;
  float_repr : float -> str;
}.

(** White space as [str.isspace], [str.strip] and the pattern [\s] see
    it (Unicode 14). *)
Definition isspace (c : char) : bool :=
  ((9 <=? c) && (c <=? 13) || (28 <=? c) && (c <=? 32)
   || (c =? 133) || (c =? 160) || (c =? 5760)
   || (8192 <=? c) && (c <=? 8202)
   || (c =? 8232) || (c =? 8233) || (c =? 8239) || (c =? 8287)
   || (c =? 12288))%N.

(** The Latin-1 part of the tables, which is all the program's own
    literals need. *)
Module Latin1.

Definition upper (c : char) : str :=
  if ((97 <=? c) && (c <=? 122))%N then [(c - 32)%N]
  else if (c =? 181)%N then [924%N]
  else if (c =? 223)%N then [83%N; 83%N]
  else if ((224 <=? c) && (c <=? 254) && negb (c =? 247))%N then [(c - 32)%N]
  else if (c =? 255)%N then [376%N]
  else [c].

Definition decimal (c : char) : option N :=
  if ((48 <=? c) && (c <=? 57))%N then Some (c - 48)%N else None.

(** A runtime for the examples.  Their tables hold no float, so that
    [float_repr] is given for the values without digits only. *)
Definition repr (f : float) : str :=
  match f with
  | S754_nan => [110; 97; 110]%N
  | S754_infinity false => [105; 110; 102]%N
  | S754_infinity true => [45; 105; 110; 102]%N
  | S754_zero false => [48; 46; 48]%N
  | S754_zero true => [45; 48; 46; 48]%N
  | S754_finite _ _ _ => []
  end.

Definition runtime : PyRuntime :=
  {| uni_upper := upper; uni_decimal := decimal; float_repr := repr |}.

(** [s] is [t] up to the case of its letters, for a [t] in upper case:
    every character of [s] has the character of [t] at its place for
    upper case. *)
Definition caseless (s t : str) : Prop :=
  Forall2 (fun c d => upper c = [d]) s t.

(** Text of code points below 256. *)
Definition text (s : str) : Prop := Forall (fun c => (c < 256)%N) s.

End Latin1.

(** ** String methods *)

Section Strings.
Context `{PyRuntime}.

Definition isdecimal (c : char) : bool :=
  match uni_decimal c with Some _ => true | None => false end.

Fixpoint lstrip (s : str) : str :=
  match s with
  | c :: s' => if isspace c then lstrip s' else s
  | [] => []
  end.

Definition rstrip (s : str) : str := reverse (lstrip (reverse s)).

(** [s.strip()] *)
Definition strip (s : str) : str := rstrip (lstrip s).

(** [s.upper()] *)
Definition upper (s : str) : str := concat (List.map uni_upper s).

(** [s.replace(old, new)] for one-character [old] and [new]. *)
Definition replace (old new : char) (s : str) : str :=
  List.map (fun c => if (c =? old)%N then new else c) s.

Definition str_eqb (a b : str) : bool := bool_decide (a = b).

(** [x in l] for a list of strings. *)
Definition str_in (x : str) (l : list str) : bool := existsb (str_eqb x) l.

(** The value of a run of decimal digits, [acc] being the value read so
    far; [ValueError] at anything else. *)
Fixpoint digits_value (acc : N) (s : str) : result N :=
  match s with
  | [] => Ok acc
  | c :: s' =>
    match uni_decimal c with
    | Some d => digits_value (acc * 10 + d)%N s'
    | None => Raise ValueError
    end
  end.

(** [int(s)] for the numerals the pattern can capture: one or more
    decimal digits.  (Signs, surrounding white space and underscores,
    which [int] also reads, cannot occur in a captured group.) *)
Definition py_int (s : str) : result Z :=
  match s with
  | [] => Raise ValueError
  | _ => n ← digits_value 0 s; Ok (Z.of_N n)
  end.

(** Splits at the first [.]: the part before it and, when there is one,
    the part after it. *)
Fixpoint split_point (s : str) : str * option str :=
  match s with
  | [] => ([], None)
  | c :: s' =>
    if (c =? 46)%N then ([], Some s')
    else let '(a, b) := split_point s' in (c :: a, b)
  end.

(** [float(s)] for the numerals the pattern can capture after the comma
    has been replaced: digits with at most one point and at least one
    digit.  A second point, or no digit at all, is a [ValueError].
    (Signs, exponents, white space, [inf] and [nan] cannot occur in a
    captured group.) *)
Definition py_float (s : str) : result float :=
  match split_point s with
  | (ip, None) =>
    match ip with
    | [] => Raise ValueError
    | _ => n ← digits_value 0 ip; Ok (F.of_decimal n 0)
    end
  | (ip, Some fp) =>
    match ip, fp with
    | [], [] => Raise ValueError
    | _, _ => n ← digits_value 0 (ip ++ fp); Ok (F.of_decimal n (length fp))
    end
  end.

End Strings.

(** ** Regular expressions

    The pattern of the program is a concatenation of greedy repetitions
    of one-character classes, some of them capturing groups.  That is the
    fragment modelled: an [atom] is a class with its bounds, and a
    pattern is a list of atoms. *)

Record atom := Atom {
  a_class : char -> bool;
  a_min : nat;
  a_max : option nat;
  a_group : bool;
}.

Module Re.

(** How many characters a greedy repetition takes at first: the longest
    run of the class at the head of [s], up to [limit]. *)
Fixpoint run (p : char -> bool) (limit : option nat) (s : str) : nat :=
  match s with
  | [] => 0
  | c :: s' =>
    if p c then
      match limit with
      | None => S (run p None s')
      | Some 0 => 0
      | Some (S k) => S (run p (Some k) s')
      end
    else 0
  end.

(** Backtracking: the continuation is tried with [k] characters, then
    with one fewer, down to [lo]. *)
Fixpoint backtrack {A} (try : nat -> option A) (lo k : nat) : option A :=
  if (k <? lo)%nat then None
  else match try k with
       | Some r => Some r
       | None => match k with
                 | 0 => None
                 | S k' => backtrack try lo k'
                 end
       end.

(** A match of [pat] at the head of [s]: the captured groups and the
    number of characters consumed. *)
Fixpoint match_here (pat : list atom) (s : str) : option (list str * nat) :=
  match pat with
  | [] => Some ([], 0)
  | a :: pat' =>
    backtrack
      (fun k =>
         match match_here pat' (drop k s) with
         | Some (groups, n) =>
           Some (if a_group a then take k s :: groups else groups, k + n)
         | None => None
         end)
      (a_min a) (run (a_class a) (a_max a) s)
  end.

(** The scan of [re.findall]: a match is looked for at each position from
    left to right, and the scan resumes where the match found ended.
    [skip] is the number of characters of the last match still to pass. *)
Fixpoint scan (pat : list atom) (skip : nat) (s : str) : list (list str) :=
  match s with
  | [] =>
    match skip, match_here pat [] with
    | 0, Some (groups, _) => [groups]
    | _, _ => []
    end
  | _ :: s' =>
    match skip with
    | S k => scan pat k s'
    | 0 =>
      match match_here pat s with
      | Some (groups, n) => groups :: scan pat (pred n) s'
      | None => scan pat 0 s'
      end
    end
  end.

(** [re.findall(pat, s)] for a pattern with several groups: the list of
    the groups of each match. *)
Definition findall (pat : list atom) (s : str) : list (list str) :=
  scan pat 0 s.

End Re.

(** ** The parser *)

Section Parser.
Context `{PyRuntime}.

Definition one (p : char -> bool) : atom := Atom p 1 (Some 1) false.
Definition rep (p : char -> bool) (lo : nat) (hi : option nat) : atom :=
  Atom p lo hi false.
Definition group (a : atom) : atom :=
  Atom (a_class a) (a_min a) (a_max a) true.
Definition chr (c : char) : char -> bool := N.eqb c.
Definition any_of (cs : str) : char -> bool := fun c => existsb (N.eqb c) cs.
Definition either (p q : char -> bool) : char -> bool :=
  fun c => p c || q c.

(** [[º°]], [[\d,\.]], [[NS]], [[\s,;eE]], [[WO]] *)
Definition cls_degree : char -> bool := any_of (u "º°").
Definition cls_seconds : char -> bool := either isdecimal (any_of (u ",.")).
Definition cls_NS : char -> bool := any_of (u "NS").
Definition cls_sep : char -> bool := either isspace (any_of (u ",;eE")).
Definition cls_WO : char -> bool := any_of (u "WO").

(** One coordinate up to its hemisphere letter: a group of one to three
    digits, a degree sign, a group of one or two digits, an apostrophe, a
    group of one or more digits, commas and points, an optional double
    quote (code point 34) and any white space. *)
Definition dms : list atom :=
  [ group (rep isdecimal 1 (Some 3)); one cls_degree;
    group (rep isdecimal 1 (Some 2)); one (chr 39);
    group (rep cls_seconds 1 None); rep (chr 34) 0 (Some 1);
    rep isspace 0 None ].

(** [padrao]: no flag is passed to [re.findall], so the letters of
    [[NS]] and [[WO]] are matched as written. *)
Definition padrao : list atom :=
  dms ++ [ group (one cls_NS); rep cls_sep 0 None ]
      ++ dms ++ [ group (one cls_WO) ].

End Parser.

(** ** Objects *)

Inductive obj :=
| PyNone
| PyStr (s : str)
| PyInt (z : Z)
| PyFloat (f : float).

(** A row as [iterrows] yields it: the values indexed by the column
    labels. *)
Abbreviation Series := (list (str * obj)) (only parsing).

Module Dec.

Fixpoint chars (d : Decimal.uint) : str :=
  match d with
  | Decimal.Nil => []
  | Decimal.D0 d => 48%N :: chars d
  | Decimal.D1 d => 49%N :: chars d
  | Decimal.D2 d => 50%N :: chars d
  | Decimal.D3 d => 51%N :: chars d
  | Decimal.D4 d => 52%N :: chars d
  | Decimal.D5 d => 53%N :: chars d
  | Decimal.D6 d => 54%N :: chars d
  | Decimal.D7 d => 55%N :: chars d
  | Decimal.D8 d => 56%N :: chars d
  | Decimal.D9 d => 57%N :: chars d
  end.

(** The decimal numeral of a natural number, without leading zeros. *)
Definition of_N (n : N) : str := chars (N.to_uint n).

(** [str(z)] for an [int]. *)
Definition of_Z (z : Z) : str :=
  match z with
  | Zneg p => 45%N :: of_N (Npos p)
  | _ => of_N (Z.to_N z)
  end.

End Dec.

(** The format [{i:02d}] for [i >= 0]: the decimal numeral, filled with
    zeros on the left up to two characters. *)
Definition format_02d (i : nat) : str :=
  let d := Dec.of_N (N.of_nat i) in
  replicate (2 - length d) 48%N ++ d.

Section Program.
Context `{PyRuntime}.

(** [str(o)] *)
Definition py_str (o : obj) : str :=
  match o with
  | PyNone => u "None"
  | PyStr s => s
  | PyInt z => Dec.of_Z z
  | PyFloat f => float_repr f
  end.

(** [pd.isna(o)] for a scalar *)
Definition isna (o : obj) : bool :=
  match o with
  | PyNone => true
  | PyFloat S754_nan => true
  | _ => false
  end.

(** One extracted point: the dictionary with the keys [LATITUDE],
    [LONGITUDE], [LATITUDE_DMS] and [LONGITUDE_DMS]. *)
Record Ponto := {
  LATITUDE : float;
  LONGITUDE : float;
  LATITUDE_DMS : str;
  LONGITUDE_DMS : str;
}.

Definition sentinelas : list str :=
  [u "NÃO CONSTA"; u "NAO CONSTA"; u "NOT INFORMED"; []].

(** The f-string of the DMS text: the degrees, [º], the minutes, an
    apostrophe, the seconds, a double quote and the hemisphere letter. *)
Definition formata_dms (graus minutos seg hem : str) : str :=
  graus ++ u "º" ++ minutos ++ u "'" ++ seg ++ dquote ++ hem.

(** The body of the loop over [matches]. *)
Definition converte (match_ : list str) : result Ponto :=
  match match_ with
  | [graus_lat; min_lat; seg_lat; hem_lat;
     graus_lon; min_lon; seg_lon; hem_lon] =>
    let seg_lat := replace 44 46 seg_lat in
    let seg_lon := replace 44 46 seg_lon in
    g ← py_int graus_lat;
    m ← py_int min_lat;
    s ← py_float seg_lat;
    let lat := F.add (F.add (F.of_int g) (F.div (F.of_int m) (F.of_int 60)))
                     (F.div s (F.of_int 3600)) in
    let lat := if str_eqb (upper hem_lat) (u "S") then F.opp lat else lat in
    g ← py_int graus_lon;
    m ← py_int min_lon;
    s ← py_float seg_lon;
    let lon := F.add (F.add (F.of_int g) (F.div (F.of_int m) (F.of_int 60)))
                     (F.div s (F.of_int 3600)) in
    let lon := if str_eqb (upper hem_lon) (u "W") then F.opp lon else lon in
    let lat_dms := formata_dms graus_lat min_lat seg_lat hem_lat in
    let lon_dms := formata_dms graus_lon min_lon seg_lon hem_lon in
    Ok {| LATITUDE := lat; LONGITUDE := lon;
          LATITUDE_DMS := lat_dms; LONGITUDE_DMS := lon_dms |}
  | _ => Raise ValueError
  end.

(** [for match in matches: ... resultados.append(...)] *)
Fixpoint converte_todos (matches : list (list str)) (resultados : list Ponto)
  : result (list Ponto) :=
  match matches with
  | [] => Ok resultados
  | match_ :: matches' =>
    p ← converte match_;
    converte_todos matches' (resultados ++ [p])
  end.

Definition extrair_coordenadas (texto : obj) : result (list Ponto) :=
  if isna texto then Ok []
  else
    match texto with
    | PyStr s =>
      if str_in (upper (strip s)) sentinelas then Ok []
      else converte_todos (Re.findall padrao s) []
    | _ => Raise AttributeError
    end.

End Program.

(** ** What the claims are stated with *)

(** What is used of the tables: below 256 they are the Latin-1 tables,
    and no white space is a decimal digit.  The tables of every version
    of Unicode are so. *)
Class UnicodeRuntime (R : PyRuntime) : Prop := {
  upper_latin1 : forall c, (c < 256)%N -> uni_upper c = Latin1.upper c;
  decimal_latin1 : forall c, (c < 256)%N -> uni_decimal c = Latin1.decimal c;
  space_not_decimal : forall c, isspace c = true -> uni_decimal c = None;
}.

(** Two atoms that differ at most by their classes above Latin-1. *)
Definition atom_agree (a b : atom) : Prop :=
  a_min a = a_min b /\ a_max a = a_max b /\ a_group a = a_group b
  /\ forall c, (c < 256)%N -> a_class a c = a_class b c.

(** A piece of text fits an atom: its characters are in the class and
    its length within the bounds. *)
Definition fits (a : atom) (piece : str) : Prop :=
  Forall (fun c => a_class a c = true) piece
  /\ a_min a <= length piece
  /\ match a_max a with Some hi => length piece <= hi | None => True end.

(** A text does not start with a character of the class. *)
Definition starts_outside (p : char -> bool) (s : str) : Prop :=
  match s with
  | [] => True
  | c :: _ => p c = false
  end.

(** The repetition of an atom cannot go on after [piece]: its bound is
    reached, or the text that follows does not start in its class. *)
Definition stops (a : atom) (piece follow : str) : Prop :=
  a_max a = Some (length piece) \/ starts_outside (a_class a) follow.

(** The pieces fit the atoms one by one, and no repetition can go on
    after its piece; [rest] is the text after the last piece. *)
Fixpoint tight (pat : list atom) (pieces : list str) (rest : str) : Prop :=
  match pat, pieces with
  | [], [] => True
  | a :: pat', x :: pieces' =>
    fits a x /\ stops a x (concat pieces' ++ rest) /\ tight pat' pieces' rest
  | _, _ => False
  end.

(** The pieces that are groups. *)
Fixpoint captured (pat : list atom) (pieces : list str) : list str :=
  match pat, pieces with
  | a :: pat', x :: pieces' =>
    if a_group a then x :: captured pat' pieces' else captured pat' pieces'
  | _, _ => []
  end.

Section Shapes.
Context `{PyRuntime}.

(** What the eight groups of a match of [padrao] are. *)
Record groups_ok (groups : list str)
    (graus_lat min_lat seg_lat hem_lat graus_lon min_lon seg_lon hem_lon : str)
  : Prop := {
  g_eq : groups = [graus_lat; min_lat; seg_lat; hem_lat;
                   graus_lon; min_lon; seg_lon; hem_lon];
  g_graus_lat : fits (group (rep isdecimal 1 (Some 3))) graus_lat;
  g_min_lat : fits (group (rep isdecimal 1 (Some 2))) min_lat;
  g_seg_lat : fits (group (rep cls_seconds 1 None)) seg_lat;
  g_hem_lat : hem_lat = u "N" \/ hem_lat = u "S";
  g_graus_lon : fits (group (rep isdecimal 1 (Some 3))) graus_lon;
  g_min_lon : fits (group (rep isdecimal 1 (Some 2))) min_lon;
  g_seg_lon : fits (group (rep cls_seconds 1 None)) seg_lon;
  g_hem_lon : hem_lon = u "W" \/ hem_lon = u "O";
}.

(** The seconds of the grammar of the specification: digits holding at
    most one separator, a comma or a point. *)
Definition is_separator (c : char) : bool := ((c =? 44) || (c =? 46))%N.

Fixpoint separators (s : str) : nat :=
  match s with
  | [] => 0
  | c :: s' => (if is_separator c then 1 else 0) + separators s'
  end.

Definition seconds_well_formed (seg : str) : bool :=
  (separators seg <=? 1)%nat && existsb isdecimal seg.

(** A character that is neither a digit, nor white space, nor a point
    or a comma, nor a double quote: such are the degree signs, the
    apostrophe and the capital letters. *)
Definition plain (c : char) : Prop :=
  (c = 39 \/ c = 176 \/ c = 186 \/ 65 <= c <= 90)%N.

(** One coordinate as the grammar of the specification writes it: the
    degrees, a degree sign, the minutes, an apostrophe, the seconds, an
    optional double quote, white space and the hemisphere letter. *)
Record coordinate := Coordinate {
  c_graus : str;
  c_sinal : char;
  c_min : str;
  c_seg : str;
  c_aspas : str;
  c_espaco : str;
  c_hem : char;
}.

Definition coordinate_pieces (c : coordinate) : list str :=
  [c_graus c; [c_sinal c]; c_min c; [39%N]; c_seg c; c_aspas c; c_espaco c;
   [c_hem c]].

Definition coordinate_text (c : coordinate) : str :=
  concat (coordinate_pieces c).

Definition coordinate_ok (letters : str) (c : coordinate) : Prop :=
  fits (rep isdecimal 1 (Some 3)) (c_graus c)
  /\ c_sinal c ∈ u "º°"
  /\ fits (rep isdecimal 1 (Some 2)) (c_min c)
  /\ fits (rep cls_seconds 1 None) (c_seg c)
  /\ seconds_well_formed (c_seg c) = true
  /\ (c_aspas c = [] \/ c_aspas c = dquote)
  /\ Forall (fun ch => isspace ch = true) (c_espaco c)
  /\ c_hem c ∈ letters.

(** The value the specification gives a coordinate: degrees plus minutes
    over 60 plus seconds over 3600, in binary64 from left to right. *)
Definition decimal_degrees (graus minutos : Z) (seg : float) : float :=
  F.add (F.add (F.of_int graus) (F.div (F.of_int minutos) (F.of_int 60)))
        (F.div seg (F.of_int 3600)).

(** Negated when the hemisphere letter, upper-cased, is [letter]. *)
Definition signed (letter hem : str) (v : float) : float :=
  if bool_decide (upper hem = letter) then F.opp v else v.

End Shapes.


(** ** The row expander *)

(** A table: the column labels and, for each row, its cells in the
    order of the columns.  The labels are strings.  They are distinct
    wherever a statement says [NoDup]: [read_excel] renames repeated
    headers, and with a repeated label [row[label]] is no cell but a
    Series of cells, which is outside this model. *)
Record DataFrame := {
  columns : list str;
  values : list (list obj);
}.

(** *** What pandas does to the values it stores

    pandas keeps the values of a column, and those of a Series, in an
    array of one type, which it chooses from the values.  The two places
    where the program goes through such a choice are parameters of the
    development, as they belong to pandas and change with its versions:
    - [series_value vals i j x] is what the Series that [iterrows]
      yields for row [i] holds at position [j], [x] being the cell there
      and [vals] the cells of the whole table ([df.values] brings the
      columns to one common type before the rows are cut out of it);
    - [column_value col x] is what a column of a new frame holds for
      the value [x] when the column is built from the values [col]. *)
Class Pandas := {
  series_value : list (list obj) -> nat -> nat -> obj -> obj;
  column_value : list obj -> obj -> obj;
}.

(** The missing value of pandas. *)
Definition nan : obj := PyFloat S754_nan.

(** An instance for the examples: a table that has a column of texts
    yields rows that hold its cells as they are, and a new column gets
    the type pandas 2 infers for the values modelled here:
    a column with a text keeps its values; a column of numbers and
    [None] with a float in it, or with both an [int] and a [None], is a
    column of floats, in which an [int] is a float and [None] is NaN;
    a column of [int] only, or of [None] only, keeps its values. *)
Module PandasObject.

Definition is_str (x : obj) : bool :=
  match x with PyStr _ => true | _ => false end.
Definition is_float (x : obj) : bool :=
  match x with PyFloat _ => true | _ => false end.
Definition is_int (x : obj) : bool :=
  match x with PyInt _ => true | _ => false end.
Definition is_none (x : obj) : bool :=
  match x with PyNone => true | _ => false end.

Definition to_float (x : obj) : obj :=
  match x with
  | PyInt z => PyFloat (F.of_int z)
  | PyNone => nan
  | _ => x
  end.

Definition infer (col : list obj) (x : obj) : obj :=
  if existsb is_str col then x
  else if existsb is_float col || (existsb is_none col && existsb is_int col)
       then to_float x
       else x.

Definition pandas : Pandas :=
  {| series_value := fun _ _ _ x => x; column_value := infer |}.

End PandasObject.

(** *** Dictionaries and the heap *)

(** A [dict]: its items in the order of insertion, with distinct keys. *)
Abbreviation dict := (list (str * obj)) (only parsing).

(** [d.get(k)] *)
Fixpoint dict_get (d : dict) (k : str) : option obj :=
  match d with
  | [] => None
  | (k', v) :: d' => if bool_decide (k' = k) then Some v else dict_get d' k
  end.

#[global] Instance dict_lookup : Lookup (list N) obj (list (list N * obj)) :=
  fun k d => dict_get d k.

(** [d[k] = v]: the value of an existing key is replaced at its place, a
    new key goes to the end. *)
Fixpoint setitem (d : dict) (k : str) (v : obj) : dict :=
  match d with
  | [] => [(k, v)]
  | (k', v') :: d' =>
    if bool_decide (k' = k) then (k', v) :: d'
    else (k', v') :: setitem d' k v
  end.

(** [d.update(e)] *)
Definition update (d : dict) (e : list (str * obj)) : dict :=
  fold_left (fun d kv => setitem d kv.1 kv.2) e d.

(** The dictionaries are objects of the heap: the program builds one for
    every row it returns and writes into it.  The address of an object
    is its position in the heap; a new object goes to the end. *)
Abbreviation heap := (list (list (list N * obj))) (only parsing).

Definition alloc (d : dict) (h : heap) : nat * heap := (length h, h ++ [d]).

(** The object at an address. *)
Definition deref (h : heap) (a : nat) : dict := default [] (h !! a).

Section Expander.
Context `{PyRuntime} `{Pandas}.

(** The rows of [df.iterrows()], without their index, which the program
    does not use: for each row of the table the Series of its values
    under the column labels. *)
Definition iterrows (df : DataFrame) : list Series :=
  imap (fun i vals =>
          zip (columns df)
              (imap (fun j x => series_value (values df) i j x) vals))
       (values df).

(** [row[key]], for a row whose labels are distinct. *)
Fixpoint getitem (row : Series) (key : str) : result obj :=
  match row with
  | [] => Raise (KeyError key)
  | (k, v) :: row' => if str_eqb k key then Ok v else getitem row' key
  end.

(** [row.to_dict()]: a new dictionary with the entries of the row. *)
Definition to_dict (row : Series) : dict :=
  fold_left (fun d kv => setitem d kv.1 kv.2) row [].

(** The items of the dictionary of a point, in the order of its
    literal. *)
Definition items (p : Ponto) : list (str * obj) :=
  [ (u "LATITUDE", PyFloat (LATITUDE p));
    (u "LONGITUDE", PyFloat (LONGITUDE p));
    (u "LATITUDE_DMS", PyStr (LATITUDE_DMS p));
    (u "LONGITUDE_DMS", PyStr (LONGITUDE_DMS p)) ].

(** The body of the loop over the points: a new dictionary is made from
    the row, written into twice, and its address appended to the
    list. *)
Definition expande_ponto (row : Series) (i : nat) (ponto : Ponto)
    (linhas_expandidas : list nat) (h : heap) : list nat * heap :=
  let '(nova_linha, h) := alloc (to_dict row) h in
  let h := alter (fun d => setitem d (u "PONTO") (PyStr (u "P" ++ format_02d i)))
                 nova_linha h in
  let h := alter (fun d => update d (items ponto)) nova_linha h in
  (linhas_expandidas ++ [nova_linha], h).

(** [for i, ponto in enumerate(pontos, 1): ...] from index [i] on. *)
Fixpoint expande_pontos (row : Series) (i : nat) (pontos : list Ponto)
    (linhas_expandidas : list nat) (h : heap) : list nat * heap :=
  match pontos with
  | [] => (linhas_expandidas, h)
  | ponto :: pontos' =>
    let '(linhas_expandidas, h) :=
      expande_ponto row i ponto linhas_expandidas h in
    expande_pontos row (S i) pontos' linhas_expandidas h
  end.

(** [for idx, row in df.iterrows(): ...] *)
Fixpoint expande_linhas (rows : list Series) (coluna_coordenadas : str)
    (linhas_expandidas : list nat) (h : heap) : result (list nat * heap) :=
  match rows with
  | [] => Ok (linhas_expandidas, h)
  | row :: rows' =>
    cell ← getitem row coluna_coordenadas;
    pontos ← extrair_coordenadas (PyStr (py_str cell));
    let '(linhas_expandidas, h) :=
      expande_pontos row 1 pontos linhas_expandidas h in
    expande_linhas rows' coluna_coordenadas linhas_expandidas h
  end.

(** The keys of a list of dictionaries, each at the place of its first
    appearance. *)
Definition add_keys (cols : list str) (keys : list str) : list str :=
  fold_left (fun cols k => if str_in k cols then cols else cols ++ [k])
            keys cols.

Definition keys_union (data : list dict) : list str :=
  fold_left (fun cols d => add_keys cols d.*1) data [].

(** The values of the key [k] in the dictionaries, NaN where a
    dictionary does not have the key. *)
Definition column_of (data : list dict) (k : str) : list obj :=
  (fun d => default nan (d !! k)) <$> data.

(** [pd.DataFrame(data)] for a list of dictionaries: one row for each
    dictionary, one column for each key, every column with the values
    pandas stores for those of its key. *)
Definition pd_DataFrame (data : list dict) : DataFrame :=
  let cols := keys_union data in
  {| columns := cols;
     values :=
       (fun d => (fun k => column_value (column_of data k)
                                        (default nan (d !! k))) <$> cols)
         <$> data |}.

(** [expandir_dataframe], run on the heap [h]: the frame returned and the
    heap after the call. *)
Definition expandir_dataframe (df : DataFrame) (coluna_coordenadas : str)
    (h : heap) : result (DataFrame * heap) :=
  st ← expande_linhas (iterrows df) coluna_coordenadas [] h;
  Ok (pd_DataFrame (deref st.2 <$> st.1), st.2).

End Expander.

(** ** The expander, row by row *)

(** What is used of pandas: a column built from texts only, or from
    floats only, holds these values. *)
Class PandasLaws (P : Pandas) : Prop := {
  column_of_texts : forall col x,
    Forall (fun y => exists s, y = PyStr s) col -> x ∈ col ->
    column_value col x = x;
  column_of_floats : forall col x,
    Forall (fun y => exists f, y = PyFloat f) col -> x ∈ col ->
    column_value col x = x;
}.

Section Rows.
Context `{PyRuntime} `{Pandas}.

(** The five keys the expander writes. *)
Definition novas_chaves : list str :=
  [u "PONTO"; u "LATITUDE"; u "LONGITUDE"; u "LATITUDE_DMS";
   u "LONGITUDE_DMS"].

(** The points parsed from the designated cell of a row. *)
Definition pontos_da_linha (coluna_coordenadas : str) (row : Series)
  : result (list Ponto) :=
  cell ← getitem row coluna_coordenadas;
  extrair_coordenadas (PyStr (py_str cell)).

(** The dictionary built for the [i]-th point of [row], as it is when
    its address is appended to the list. *)
Definition nova_linha (row : Series) (i : nat) (ponto : Ponto) : dict :=
  update (setitem (to_dict row) (u "PONTO") (PyStr (u "P" ++ format_02d i)))
         (items ponto).

(** The dictionaries a source row gives: one for each of its points,
    numbered from 1 in the order of extraction. *)
Definition expande_linha (row : Series) (pontos : list Ponto) : list dict :=
  imap (fun j ponto => nova_linha row (S j) ponto) pontos.

(** Every row of the table has a value for every column. *)
Definition well_formed (df : DataFrame) : Prop :=
  Forall (fun vals => length vals = length (columns df)) (values df).

(** Every field of the source row is in the new row with its value. *)
Definition fields_preserved (row : Series) (linha : dict) : Prop :=
  forall k v, (k, v) ∈ row -> linha !! k = Some v.

(** [df.at[n, k]]: the cell of row [n] in the column [k]. *)
Definition cell_at (df : DataFrame) (n : nat) (k : str) : option obj :=
  vals ← values df !! n; zip (columns df) vals !! k.

End Rows.

(** ** Inputs of the examples *)

(** The example of the specification, and the same text with the other
    degree sign. *)
Definition exemplo : str :=
  u "3º03'52,9838" ++ dquote ++ u "S 59º54'46,6013" ++ dquote ++ u "W".

Definition exemplo_grau : str :=
  u "3°03'52,9838" ++ dquote ++ u "S 59°54'46,6013" ++ dquote ++ u "W".

(** The example with its hemisphere letters in lower case. *)
Definition exemplo_minusculas : str :=
  u "3º03'52,9838" ++ dquote ++ u "s 59º54'46,6013" ++ dquote ++ u "w".

(** A pair whose latitude seconds hold two points. *)
Definition texto_dois_pontos : str :=
  u "1º1'1.2.3" ++ dquote ++ u "N 1º1'1" ++ dquote ++ u "W".

(** The example followed by a second pair, whose latitude seconds hold
    two commas. *)
Definition texto_par_e_defeito : str :=
  exemplo ++ u "; 1º1'2,," ++ dquote ++ u "N 1º1'1" ++ dquote ++ u "W".

(** One degree north, one degree west written with the letter O. *)
Definition texto_oeste : str :=
  u "1º0'0" ++ dquote ++ u "N 1º0'0" ++ dquote ++ u "O".

(** The two coordinates of the example, as the grammar writes them. *)
Definition exemplo_lat : coordinate :=
  {| c_graus := u "3"; c_sinal := 186; c_min := u "03";
     c_seg := u "52,9838"; c_aspas := dquote; c_espaco := [];
     c_hem := 83 |}.

Definition exemplo_lon : coordinate :=
  {| c_graus := u "59"; c_sinal := 186; c_min := u "54";
     c_seg := u "46,6013"; c_aspas := dquote; c_espaco := [];
     c_hem := 87 |}.

(** What a call returns, for the examples: the value, or the empty list
    when it raises. *)
Definition returned {A} (r : result (list A)) : list A :=
  match r with
  | Ok l => l
  | Raise _ => []
  end.

(** A table without rows, and a column name it does not have. *)
Definition tabela_vazia : DataFrame :=
  {| columns := [u "ID"; u "COORDENADAS"]; values := [] |}.

(** A table that has a column named PONTO. *)
Definition tabela_ponto : DataFrame :=
  {| columns := [u "PONTO"; u "COORDENADAS"];
     values := [[PyStr (u "Marco 7"); PyStr exemplo]] |}.

(** The table of the specification's example of order: two points in the
    first row, none in the second, one in the third. *)
Definition tabela_ordem : DataFrame :=
  {| columns := [u "ID"; u "COORDENADAS"];
     values := [ [PyInt 1; PyStr (exemplo ++ u "; " ++ exemplo_grau)];
                 [PyInt 2; PyStr (u "NAO CONSTA")];
                 [PyInt 3; PyStr exemplo] ] |}.

(** A table whose first row holds the example and whose second row holds
    a pair with two points in its seconds. *)
Definition tabela_defeito : DataFrame :=
  {| columns := [u "ID"; u "COORDENADAS"];
     values := [ [PyInt 1; PyStr exemplo];
                 [PyInt 2; PyStr texto_dois_pontos] ] |}.

(** The first row of [tabela_defeito] alone. *)
Definition tabela_sem_defeito : DataFrame :=
  {| columns := [u "ID"; u "COORDENADAS"];
     values := [ [PyInt 1; PyStr exemplo] ] |}.

(** A table whose column K holds an [int] and, in another row, no
    value. *)
Definition tabela_tipos : DataFrame :=
  {| columns := [u "K"; u "COORDENADAS"];
     values := [ [PyInt 1; PyStr exemplo];
                 [PyNone; PyStr exemplo_grau] ] |}.

(** The points of the rows of [tabela_ordem], the dictionaries built
    for them and the frame returned. *)
Definition pontos_ordem : list (list Ponto) :=
  List.map (fun row => returned (@pontos_da_linha Latin1.runtime
                                   (u "COORDENADAS") row))
           (@iterrows PandasObject.pandas tabela_ordem).

Definition linhas_ordem : list dict :=
  concat (zip_with expande_linha
                   (@iterrows PandasObject.pandas tabela_ordem) pontos_ordem).

Definition quadro_ordem : DataFrame :=
  @pd_DataFrame PandasObject.pandas linhas_ordem.

(** A heap that holds one object before the call. *)
Definition heap_exemplo : heap := [[(u "ID", PyInt 7)]].
(** * Properties of the pattern matcher *)

Ltac bool_to_prop :=
  repeat first
    [ rewrite andb_true_iff in * | rewrite orb_true_iff in *
    | rewrite andb_false_iff in * | rewrite orb_false_iff in *
    | rewrite negb_true_iff in * | rewrite negb_false_iff in *
    | rewrite N.leb_le in * | rewrite N.leb_gt in *
    | rewrite N.eqb_eq in * | rewrite N.eqb_neq in * ].


Section ReFacts.

Lemma run_take p limit s k :
  k <= Re.run p limit s ->
  Forall (fun c => p c = true) (take k s) /\ k <= length s
  /\ match limit with Some hi => k <= hi | None => True end.
Proof.
  revert limit k. induction s as [|c s IH]; intros limit k Hk; simpl in *.
  - assert (k = 0) by lia. subst. destruct limit; repeat split; auto; lia.
  - destruct k as [|k].
    { simpl. destruct limit; repeat split; auto; lia. }
    destruct (p c) eqn:Hc; [|lia].
    destruct limit as [[|hi]|]; try lia.
    + destruct (IH (Some hi) k) as (Hf & Hl & Hm); [lia|].
      simpl. repeat split; [constructor; auto|lia|lia].
    + destruct (IH None k) as (Hf & Hl & _); [lia|].
      simpl. repeat split; [constructor; auto|lia].
Qed.

Lemma backtrack_Some {A} (try : nat -> option A) lo k r :
  Re.backtrack try lo k = Some r ->
  exists j, lo <= j <= k /\ try j = Some r.
Proof.
  induction k as [|k IH]; simpl.
  - destruct (0 <? lo)%nat eqn:E; [discriminate|].
    apply Nat.ltb_ge in E. destruct (try 0) eqn:T; [|discriminate].
    intros [= <-]. exists 0. split; [lia|done].
  - destruct (S k <? lo)%nat eqn:E; [discriminate|].
    apply Nat.ltb_ge in E. destruct (try (S k)) eqn:T.
    + intros [= <-]. exists (S k). split; [lia|done].
    + intros Hb. destruct (IH Hb) as (j & Hj & Tj). exists j. split; [lia|done].
Qed.

Lemma take_plus (s : str) k n :
  take (k + n) s = take k s ++ take n (drop k s).
Proof.
  revert s. induction k as [|k IH]; intros [|c s]; simpl; try done.
  - by rewrite take_nil.
  - by rewrite IH.
Qed.

(** A match splits the text consumed into one piece per atom. *)
Lemma match_here_sound pat s groups n :
  Re.match_here pat s = Some (groups, n) ->
  exists pieces,
    Forall2 fits pat pieces /\ take n s = concat pieces
    /\ n <= length s /\ groups = captured pat pieces.
Proof.
  revert s groups n. induction pat as [|a pat IH]; intros s groups n; simpl.
  - intros [= <- <-]. exists []. repeat split; [constructor|lia].
  - intros Hb. apply backtrack_Some in Hb as (k & [Hlo Hhi] & Hk).
    destruct (Re.match_here pat (drop k s)) as [[gs m]|] eqn:Hm; [|discriminate].
    injection Hk as <- <-.
    destruct (IH _ _ _ Hm) as (pieces & Hfit & Htake & Hlen & Hgs).
    destruct (run_take _ _ _ _ Hhi) as (Hcls & Hks & Hmax).
    exists (take k s :: pieces). rewrite length_drop in Hlen.
    split; [|split; [|split]].
    + constructor; [|done]. unfold fits. rewrite length_take.
      repeat split; [done|lia|]. destruct (a_max a); [lia|done].
    + simpl. rewrite take_plus. by rewrite Htake.
    + lia.
    + simpl. by rewrite Hgs.
Qed.

(** Every element of a scan is a match at some position of the text. *)
Lemma scan_sound pat skip s groups :
  groups ∈ Re.scan pat skip s ->
  exists s' n, s' `suffix_of` s /\ Re.match_here pat s' = Some (groups, n).
Proof.
  revert skip. induction s as [|c s IH]; intros skip; simpl.
  - destruct skip; [|by intros ?%elem_of_nil].
    destruct (Re.match_here pat []) as [[gs n]|] eqn:Hm; [|by intros ?%elem_of_nil].
    intros ->%list_elem_of_singleton. by exists [], n.
  - destruct skip as [|k].
    + destruct (Re.match_here pat (c :: s)) as [[gs n]|] eqn:Hm.
      * intros [->|Hin]%elem_of_cons.
        { by exists (c :: s), n. }
        destruct (IH _ Hin) as (s' & n' & Hs & Hn).
        exists s', n'. split; [by apply suffix_cons_r|done].
      * intros Hin. destruct (IH _ Hin) as (s' & n' & Hs & Hn).
        exists s', n'. split; [by apply suffix_cons_r|done].
    + intros Hin. destruct (IH _ Hin) as (s' & n' & Hs & Hn).
      exists s', n'. split; [by apply suffix_cons_r|done].
Qed.

Lemma run_exact p limit piece follow :
  Forall (fun c => p c = true) piece ->
  match limit with Some hi => length piece <= hi | None => True end ->
  limit = Some (length piece) \/ starts_outside p follow ->
  Re.run p limit (piece ++ follow) = length piece.
Proof.
  intros Hp. revert limit. induction Hp as [|c piece Hc _ IH]; intros limit Hhi Hst.
  - simpl. destruct follow as [|d follow]; [done|]. simpl.
    destruct Hst as [->|Hd]; [by destruct (p d)|]. simpl in Hd. by rewrite Hd.
  - simpl. rewrite Hc. destruct limit as [[|hi]|]; simpl in *; [lia| |].
    + rewrite (IH (Some hi)); [done|lia|].
      destruct Hst as [[= ->]|Hd]; [by left|by right].
    + rewrite (IH None); [done|done|].
      destruct Hst as [[=]|Hd]. by right.
Qed.

Lemma backtrack_first {A} (try : nat -> option A) lo k r :
  lo <= k -> try k = Some r -> Re.backtrack try lo k = Some r.
Proof.
  intros Hlo Hk. destruct k; simpl.
  - assert (lo = 0) as -> by lia. simpl. by rewrite Hk.
  - destruct (S k <? lo)%nat eqn:E; [apply Nat.ltb_lt in E; lia|].
    by rewrite Hk.
Qed.

(** Tight pieces are what the matcher finds, without backtracking. *)
Lemma match_here_tight pat pieces rest :
  tight pat pieces rest ->
  Re.match_here pat (concat pieces ++ rest)
  = Some (captured pat pieces, length (concat pieces)).
Proof.
  revert pieces. induction pat as [|a pat IH]; intros [|x pieces]; simpl;
    try done.
  intros ((Hc & Hlo & Hhi) & Hst & Ht).
  rewrite <- app_assoc.
  rewrite run_exact; [|done|done|exact Hst].
  apply backtrack_first; [done|].
  rewrite drop_app_length, (IH _ Ht), take_app_length, length_app. done.
Qed.

(** The scan passes over the characters of the match found. *)
Lemma scan_skip pat a b :
  Re.scan pat (length a) (a ++ b) = Re.scan pat 0 b.
Proof. induction a as [|c a IH]; simpl; done. Qed.

End ReFacts.

(** * Properties of [padrao] *)

Section PadraoFacts.
Context `{PyRuntime}.

Lemma fits_one_chr c piece : fits (one (chr c)) piece -> piece = [c].
Proof.
  intros (Hc & Hlo & Hhi). simpl in *.
  destruct piece as [|d [|e piece]]; simpl in *; try lia.
  apply Forall_cons in Hc as [Hd _]. unfold chr in Hd.
  by apply N.eqb_eq in Hd as ->.
Qed.

Lemma fits_one_any_of2 a b piece :
  fits (group (one (any_of [a; b]))) piece -> piece = [a] \/ piece = [b].
Proof.
  intros (Hc & Hlo & Hhi). simpl in *.
  destruct piece as [|d [|e piece]]; simpl in *; try lia.
  apply Forall_cons in Hc as [Hd _]. unfold any_of in Hd. simpl in Hd.
  rewrite orb_false_r in Hd. apply orb_true_iff in Hd as [Hd|Hd];
    apply N.eqb_eq in Hd as ->; auto.
Qed.

Ltac invert_pieces :=
  repeat match goal with
         | Hf : Forall2 fits (_ :: _) _ |- _ =>
           apply Forall2_cons_inv_l in Hf as (? & ? & ? & Hf & ->)
         | Hf : Forall2 fits [] _ |- _ => apply Forall2_nil_inv_l in Hf as ->
         end.

(** A match of [padrao] has eight groups of the expected shapes, and the
    text it consumes holds an apostrophe. *)
Lemma padrao_match s groups n :
  Re.match_here padrao s = Some (groups, n) ->
  (exists gl ml sl hl gn mn sn hn, groups_ok groups gl ml sl hl gn mn sn hn)
  /\ 39%N ∈ s.
Proof.
  intros Hm. apply match_here_sound in Hm as (pieces & Hf & Htake & _ & ->).
  unfold padrao, dms in Hf. simpl in Hf. invert_pieces.
  split.
  - do 8 eexists. split; simpl; try reflexivity; try eassumption.
    + by apply (fits_one_any_of2 78%N 83%N).
    + by apply (fits_one_any_of2 87%N 79%N).
  - match goal with Hq : fits (one (chr 39)) _ |- _ =>
      apply fits_one_chr in Hq as -> end.
    assert (Hin : 39%N ∈ take n s).
    { rewrite Htake. simpl. set_solver. }
    by apply (subseteq_take n s).
Qed.

(** Every element of [findall padrao s] is such a list of groups, and
    there is none unless the text holds an apostrophe. *)
Lemma findall_padrao s groups :
  groups ∈ Re.findall padrao s ->
  (exists gl ml sl hl gn mn sn hn, groups_ok groups gl ml sl hl gn mn sn hn)
  /\ 39%N ∈ s.
Proof.
  intros Hin. apply scan_sound in Hin as (s' & n & Hsuf & Hm).
  apply padrao_match in Hm as [Hg Hq]. split; [done|].
  destruct Hsuf as [pre ->]. apply elem_of_app. by right.
Qed.

End PadraoFacts.

(** * Properties of the string methods *)

Section StringFacts.
Context `{R : PyRuntime}.

Lemma elem_lstrip c s : c ∈ s -> isspace c = false -> c ∈ lstrip s.
Proof.
  intros Hin Hc. induction s as [|d s IH]; simpl; [done|].
  destruct (isspace d) eqn:Hd; [|done].
  apply elem_of_cons in Hin as [->|Hin]; [congruence|auto].
Qed.

Lemma elem_strip c s : c ∈ s -> isspace c = false -> c ∈ strip s.
Proof.
  intros Hin Hc. unfold strip, rstrip.
  apply elem_of_reverse, elem_lstrip; [|done].
  by apply elem_of_reverse, elem_lstrip.
Qed.

Lemma elem_upper c s : c ∈ s -> uni_upper c = [c] -> c ∈ upper s.
Proof.
  intros Hin Hc. unfold upper. induction s as [|d s IH]; simpl.
  - by apply elem_of_nil in Hin.
  - apply elem_of_app. apply elem_of_cons in Hin as [<-|Hin].
    + left. rewrite Hc. by apply list_elem_of_singleton.
    + right. auto.
Qed.

Lemma str_eqb_eq (a b : str) : str_eqb a b = true <-> a = b.
Proof. unfold str_eqb. apply bool_decide_eq_true. Qed.

Lemma str_in_elem x l : str_in x l = true <-> x ∈ l.
Proof.
  unfold str_in. rewrite existsb_exists. split.
  - intros (y & Hy & ->%str_eqb_eq). by apply list_elem_of_In.
  - intros Hx. exists x. split; [by apply list_elem_of_In|by apply str_eqb_eq].
Qed.

Lemma sentinelas_sem_apostrofo x : x ∈ sentinelas -> 39%N ∉ x.
Proof.
  unfold sentinelas. rewrite !elem_of_cons, elem_of_nil.
  intros [->|[->|[->|[->|[]]]]];
    refine (bool_decide_unpack _ _); vm_compute; exact I.
Qed.

Lemma digits_value_ok s acc :
  Forall (fun c => isdecimal c = true) s -> exists n, digits_value acc s = Ok n.
Proof.
  intros Hs. revert acc. induction Hs as [|c s Hc _ IH]; intros acc; simpl.
  - by exists acc.
  - unfold isdecimal in Hc. destruct (uni_decimal c); [|discriminate]. apply IH.
Qed.

Lemma py_int_ok hi g :
  fits (group (rep isdecimal 1 hi)) g -> exists z, py_int g = Ok z.
Proof.
  intros (Hc & Hlo & _). simpl in *.
  destruct (digits_value_ok g 0 Hc) as [n Hn].
  exists (Z.of_N n). unfold py_int. destruct g; [simpl in Hlo; lia|].
  by rewrite Hn.
Qed.

(** Parts without a separator are left alone by the replacement, and a
    point is not found in them. *)
Lemma replace_cons c s :
  replace 44 46 (c :: s) = (if (c =? 44)%N then 46%N else c) :: replace 44 46 s.
Proof. reflexivity. Qed.

Lemma split_point_none s :
  separators s = 0 -> split_point (replace 44 46 s) = (s, None).
Proof.
  induction s as [|c s IH]; [done|].
  rewrite replace_cons. simpl. unfold is_separator.
  destruct (c =? 44)%N eqn:E1; simpl; [lia|].
  destruct (c =? 46)%N eqn:E2; simpl; [lia|]. intros Hs.
  by rewrite (IH Hs).
Qed.

Lemma replace_none s : separators s = 0 -> replace 44 46 s = s.
Proof.
  induction s as [|c s IH]; [done|].
  rewrite replace_cons. simpl. unfold is_separator.
  destruct (c =? 44)%N eqn:E1; simpl; [lia|].
  destruct (c =? 46)%N; simpl; [lia|]. intros Hs. by rewrite (IH Hs).
Qed.

Lemma split_point_one s :
  separators s = 1 ->
  exists a b c, s = a ++ c :: b /\ is_separator c = true
    /\ separators a = 0 /\ separators b = 0
    /\ split_point (replace 44 46 s) = (a, Some b).
Proof.
  induction s as [|c s IH]; [simpl; lia|].
  rewrite replace_cons. simpl.
  destruct (is_separator c) eqn:Ec; simpl; intros Hs.
  - exists [], s, c. assert (Hs0 : separators s = 0) by lia.
    repeat split; try done.
    unfold is_separator in Ec.
    destruct (c =? 44)%N eqn:E1; simpl.
    + by rewrite (replace_none _ Hs0).
    + simpl in Ec. rewrite Ec. by rewrite (replace_none _ Hs0).
  - destruct (IH Hs) as (a & b & d & -> & Hd & Ha & Hb & Hsp).
    exists (c :: a), b, d. simpl. rewrite Ec. repeat split; try done.
    unfold is_separator in Ec. apply orb_false_iff in Ec as [E1 E2].
    by rewrite E1, E2, Hsp.
Qed.

Lemma separators_app a b : separators (a ++ b) = separators a + separators b.
Proof. induction a as [|c a IH]; simpl; [done|]. rewrite IH. lia. Qed.

Lemma cls_seconds_eq c : cls_seconds c = isdecimal c || is_separator c.
Proof.
  unfold cls_seconds, either, any_of, is_separator.
  change (u ",.") with [44%N; 46%N]. simpl. by rewrite orb_false_r.
Qed.

Lemma seconds_digits s :
  Forall (fun c => cls_seconds c = true) s -> separators s = 0 ->
  Forall (fun c => isdecimal c = true) s.
Proof.
  induction 1 as [|c s Hc _ IH]; simpl; [constructor|].
  destruct (is_separator c) eqn:Ec; [lia|]. intros Hs.
  constructor; [|auto]. rewrite cls_seconds_eq, Ec in Hc.
  by rewrite orb_false_r in Hc.
Qed.

End StringFacts.

(** * Texts written by the grammar *)

Section Grammar.
Context `{R : PyRuntime} `{!UnicodeRuntime R}.

Lemma tight_app pat1 pat2 pieces1 pieces2 rest :
  tight pat1 pieces1 (concat pieces2 ++ rest) -> tight pat2 pieces2 rest ->
  tight (pat1 ++ pat2) (pieces1 ++ pieces2) rest.
Proof.
  revert pieces1. induction pat1 as [|a pat1 IH]; intros [|x pieces1]; simpl;
    try done.
  intros (Hf & Hs & Ht) H2. split; [done|]. split; [|by apply IH].
  by rewrite concat_app, <- app_assoc.
Qed.

Lemma starts_outside_app p x y :
  Forall (fun c => p c = false) x -> starts_outside p y ->
  starts_outside p (x ++ y).
Proof. intros [|c x' Hc _]; simpl; done. Qed.

Lemma any_of_elem cs c : any_of cs c = true <-> c ∈ cs.
Proof.
  unfold any_of. rewrite existsb_exists. split.
  - intros (d & Hd & ->%N.eqb_eq). by apply list_elem_of_In.
  - intros Hc. exists c. split; [by apply list_elem_of_In|apply N.eqb_refl].
Qed.

Lemma isdecimal_below c :
  (c < 256)%N -> isdecimal c = true -> (48 <= c <= 57)%N.
Proof.
  intros Hc. unfold isdecimal. rewrite (decimal_latin1 c Hc).
  unfold Latin1.decimal. destruct (_ && _) eqn:E; [|done].
  intros _. bool_to_prop. lia.
Qed.

Lemma space_not_isdecimal c : isspace c = true -> isdecimal c = false.
Proof. intros Hc. unfold isdecimal. by rewrite (space_not_decimal c Hc). Qed.

Lemma isspace_below_33 c : (33 <= c < 128)%N -> isspace c = false.
Proof.
  intros Hc. unfold isspace. destruct (_ || _) eqn:E; [|done].
  exfalso. bool_to_prop. lia.
Qed.

Lemma plain_outside c :
  plain c ->
  isdecimal c = false /\ isspace c = false /\ cls_seconds c = false
  /\ chr 34 c = false.
Proof.
  intros Hc.
  assert (Hd : isdecimal c = false).
  { destruct (isdecimal c) eqn:E; [|done].
    apply isdecimal_below in E; unfold plain in Hc; lia. }
  assert (Hs : isspace c = false).
  { unfold isspace. destruct (_ || _) eqn:E; [|done].
    exfalso. unfold plain in Hc. bool_to_prop. lia. }
  repeat split; try done.
  - rewrite cls_seconds_eq, Hd. unfold is_separator.
    destruct (_ || _) eqn:E; [|done].
    exfalso. unfold plain in Hc. bool_to_prop. lia.
  - unfold chr. destruct (34 =? c)%N eqn:E; [|done].
    exfalso. unfold plain in Hc. bool_to_prop. lia.
Qed.

Lemma space_outside c :
  isspace c = true -> cls_seconds c = false /\ chr 34 c = false.
Proof.
  intros Hc. split.
  - rewrite cls_seconds_eq, (space_not_isdecimal c Hc). unfold is_separator.
    destruct (_ || _) eqn:E; [|done].
    exfalso. unfold isspace in Hc. bool_to_prop. lia.
  - unfold chr. destruct (34 =? c)%N eqn:E; [|done].
    exfalso. unfold isspace in Hc. bool_to_prop. lia.
Qed.

Lemma decimal_not_sep c : isdecimal c = true -> cls_sep c = false.
Proof.
  intros Hc. unfold cls_sep, either.
  destruct (isspace c) eqn:Es.
  { by rewrite (space_not_isdecimal c Es) in Hc. }
  simpl. destruct (any_of (u ",;eE") c) eqn:E; [|done].
  exfalso. apply any_of_elem in E.
  assert (Hlt : (c < 256)%N).
  { revert E. change (u ",;eE") with [44; 59; 101; 69]%N.
    rewrite !elem_of_cons, elem_of_nil. lia. }
  pose proof (isdecimal_below c Hlt Hc).
  revert E. change (u ",;eE") with [44; 59; 101; 69]%N.
  rewrite !elem_of_cons, elem_of_nil. lia.
Qed.

Lemma fits_single p c g : p c = true -> fits (Atom p 1 (Some 1) g) [c].
Proof. intros Hc. repeat split; simpl; [by constructor|lia|lia]. Qed.

Lemma fits_below p c g : p c = true -> fits (Atom p 0 (Some 1) g) [c].
Proof. intros Hc. repeat split; simpl; [by constructor|lia|lia]. Qed.

Lemma quote_not_seconds : cls_seconds 34 = false.
Proof.
  rewrite cls_seconds_eq. unfold isdecimal. by rewrite decimal_latin1.
Qed.

(** A coordinate written by the grammar gives tight pieces for the
    pattern of one coordinate. *)
Lemma coordinate_tight letters c follow :
  Forall (fun l => (65 <= l <= 90)%N) letters ->
  coordinate_ok letters c ->
  tight (dms ++ [group (one (any_of letters))]) (coordinate_pieces c) follow.
Proof.
  intros Hcap (Hg & Hd & Hm & Hs & _ & Hq & Hw & Hh).
  assert (Hsinal : plain (c_sinal c)).
  { revert Hd. change (u "º°") with [186; 176]%N.
    rewrite !elem_of_cons, elem_of_nil. unfold plain. lia. }
  assert (Hhem : plain (c_hem c)).
  { unfold plain. pose proof (proj1 (Forall_forall _ _) Hcap _ Hh) as Hl.
    simpl in Hl. lia. }
  assert (H39 : plain 39) by (unfold plain; lia).
  destruct (plain_outside _ Hsinal) as (Hs1 & _).
  destruct (plain_outside _ H39) as (Hq1 & _).
  destruct (plain_outside _ Hhem) as (_ & Hh2 & Hh3 & Hh4).
  unfold dms, coordinate_pieces. cbn [app tight concat].
  rewrite <- !app_assoc. cbn [app].
  split; [exact Hg|]. split; [by right|].
  split; [by apply (fits_single _ _ false), any_of_elem|]. split; [by left|].
  split; [exact Hm|]. split; [by right|].
  split; [apply (fits_single _ _ false), N.eqb_refl|]. split; [by left|].
  split; [exact Hs|]. split.
  { right. apply starts_outside_app.
    - destruct Hq as [->| ->]; [done|]. constructor; [|done].
      apply quote_not_seconds.
    - apply starts_outside_app; [|exact Hh3].
      eapply Forall_impl; [exact Hw|]. intros ch Hch.
      apply (space_outside ch Hch). }
  split.
  { destruct Hq as [->| ->]; [repeat split; simpl; [constructor|lia|lia]|].
    apply (fits_below (chr 34) 34 false), N.eqb_refl. }
  split.
  { destruct Hq as [->| ->]; [right|by left].
    simpl. apply starts_outside_app; [|exact Hh4].
    eapply Forall_impl; [exact Hw|]. intros ch Hch.
    apply (space_outside ch Hch). }
  split; [repeat split; [exact Hw|simpl; lia]|].
  split; [by right|].
  split; [by apply (fits_single _ _ true), any_of_elem|].
  split; [by left|done].
Qed.

(** A pair written by the grammar gives tight pieces for [padrao]. *)
Lemma pair_tight lat sep lon post :
  coordinate_ok (u "NS") lat -> coordinate_ok (u "WO") lon ->
  Forall (fun c => cls_sep c = true) sep ->
  tight padrao (coordinate_pieces lat ++ [sep] ++ coordinate_pieces lon) post.
Proof.
  intros Hlat Hlon Hsep.
  change padrao with ((dms ++ [group (one (any_of (u "NS")))])
                        ++ [rep cls_sep 0 None]
                        ++ (dms ++ [group (one (any_of (u "WO")))])).
  assert (HNS : Forall (fun l => (65 <= l <= 90)%N) (u "NS")).
  { change (u "NS") with [78; 83]%N. repeat constructor; lia. }
  assert (HWO : Forall (fun l => (65 <= l <= 90)%N) (u "WO")).
  { change (u "WO") with [87; 79]%N. repeat constructor; lia. }
  apply tight_app; [by apply coordinate_tight|].
  apply tight_app; [|by apply coordinate_tight].
  simpl. split; [repeat split; simpl; try done; lia|]. split; [|done].
  right. destruct Hlon as ((Hc & Hlo & _) & _). simpl in Hlo.
  destruct (c_graus lon) as [|d ?]; [simpl in Hlo; lia|]. simpl.
  apply Forall_cons in Hc as [Hd _]. by apply decimal_not_sep.
Qed.

Lemma match_here_outside a pat c s :
  a_class a c = false -> 1 <= a_min a ->
  Re.match_here (a :: pat) (c :: s) = None.
Proof.
  intros Hc Hlo. simpl. rewrite Hc. simpl.
  destruct (a_min a); [lia|done].
Qed.

(** No match starts at a character that is not a digit. *)
Lemma scan_prefix pre s :
  Forall (fun c => isdecimal c = false) pre ->
  Re.scan padrao 0 (pre ++ s) = Re.scan padrao 0 s.
Proof.
  induction 1 as [|c pre Hc _ IH]; [done|].
  cbn [app Re.scan].
  change padrao with (group (rep isdecimal 1 (Some 3))
                        :: tail padrao).
  by rewrite match_here_outside.
Qed.

(** The scan of a text made of a prefix without digits, a pair written
    by the grammar and a suffix without apostrophe finds that pair and
    nothing else. *)
Lemma findall_rendered pre lat sep lon post :
  coordinate_ok (u "NS") lat -> coordinate_ok (u "WO") lon ->
  Forall (fun c => cls_sep c = true) sep ->
  Forall (fun c => isdecimal c = false) pre -> 39%N ∉ post ->
  Re.findall padrao
    (pre ++ coordinate_text lat ++ sep ++ coordinate_text lon ++ post)
  = [[c_graus lat; c_min lat; c_seg lat; [c_hem lat];
      c_graus lon; c_min lon; c_seg lon; [c_hem lon]]].
Proof.
  intros Hlat Hlon Hsep Hpre Hpost. unfold Re.findall.
  rewrite (scan_prefix _ _ Hpre).
  pose proof (match_here_tight _ _ post (pair_tight lat sep lon post Hlat Hlon Hsep))
    as Hm.
  assert (Et : concat (coordinate_pieces lat ++ [sep] ++ coordinate_pieces lon)
               = coordinate_text lat ++ sep ++ coordinate_text lon).
  { rewrite !concat_app. simpl concat at 2. by rewrite app_nil_r. }
  rewrite Et in Hm. clear Et.
  change (captured padrao _)
    with [c_graus lat; c_min lat; c_seg lat; [c_hem lat];
          c_graus lon; c_min lon; c_seg lon; [c_hem lon]] in Hm.
  assert (Hne : coordinate_text lat ++ sep ++ coordinate_text lon <> []).
  { unfold coordinate_text at 1, coordinate_pieces. simpl.
    destruct Hlat as ((_ & Hlo & _) & _). simpl in Hlo.
    destruct (c_graus lat); [simpl in Hlo; lia|done]. }
  replace (coordinate_text lat ++ sep ++ coordinate_text lon ++ post)
    with ((coordinate_text lat ++ sep ++ coordinate_text lon) ++ post)
    by (by rewrite <- !app_assoc).
  destruct (coordinate_text lat ++ sep ++ coordinate_text lon) as [|c text];
    [done|].
  cbn [app Re.scan]. cbn [app] in Hm. rewrite Hm.
  cbn [pred length]. rewrite scan_skip.
  replace (Re.scan padrao 0 post) with (@nil (list (list N))); [done|].
  destruct (Re.scan padrao 0 post) as [|g gs] eqn:Hs; [done|].
  exfalso. apply Hpost.
  assert (Hg : g ∈ Re.findall padrao post)
    by (unfold Re.findall; rewrite Hs; apply elem_of_cons; by left).
  by apply findall_padrao in Hg as [_ Hq].
Qed.

End Grammar.

(** * The parser *)

Section ParserFacts.
Context `{R : PyRuntime} `{!UnicodeRuntime R}.

Lemma separator_not_decimal c : is_separator c = true -> isdecimal c = false.
Proof.
  unfold is_separator, isdecimal. intros [E|E]%orb_true_iff;
    apply N.eqb_eq in E as ->; by rewrite decimal_latin1.
Qed.

Lemma exists_decimal_parts a c b :
  is_separator c = true -> existsb isdecimal (a ++ c :: b) = true ->
  a ++ b <> [].
Proof.
  intros Hc. rewrite existsb_app. simpl.
  rewrite (separator_not_decimal _ Hc). simpl.
  destruct a, b; simpl; try done.
Qed.

(** [float] reads every well-formed seconds group the pattern captures. *)
Lemma py_float_ok seg :
  Forall (fun c => cls_seconds c = true) seg ->
  seconds_well_formed seg = true ->
  exists n k, py_float (replace 44 46 seg) = Ok (F.of_decimal n k).
Proof.
  intros Hcls [Hsep Hdig]%andb_true_iff. apply Nat.leb_le in Hsep.
  unfold py_float.
  destruct (separators seg) as [|[|?]] eqn:Hs; [| |lia].
  - rewrite (split_point_none _ Hs).
    destruct (digits_value_ok seg 0 (seconds_digits _ Hcls Hs)) as [n Hn].
    exists n, 0. destruct seg; [discriminate|]. by rewrite Hn.
  - destruct (split_point_one _ Hs) as (a & b & c & -> & Hc & Ha & Hb & ->).
    apply Forall_app in Hcls as [Hca Hcb]. apply Forall_cons in Hcb as [_ Hcb].
    assert (Hab : Forall (fun c => isdecimal c = true) (a ++ b)).
    { apply Forall_app. split; by apply seconds_digits. }
    destruct (digits_value_ok _ 0 Hab) as [n Hn].
    exists n, (length b).
    pose proof (exists_decimal_parts _ _ _ Hc Hdig) as Hne.
    destruct a, b; try done; by rewrite Hn.
Qed.

Lemma upper_hem hem :
  hem ∈ [u "N"; u "S"; u "W"; u "O"] -> upper hem = hem.
Proof.
  rewrite !elem_of_cons, elem_of_nil.
  intros [->|[->|[->|[->|[]]]]]; unfold upper; simpl;
    by rewrite upper_latin1.
Qed.

(** The loop body succeeds on the groups of a match whose seconds are
    well formed, with the values of the specification. *)
Lemma converte_ok groups gl ml sl hl gn mn sn hn :
  groups_ok groups gl ml sl hl gn mn sn hn ->
  seconds_well_formed sl = true -> seconds_well_formed sn = true ->
  exists dl ml' nl kl dn mn' nn kn,
    py_int gl = Ok dl /\ py_int ml = Ok ml'
    /\ py_float (replace 44 46 sl) = Ok (F.of_decimal nl kl)
    /\ py_int gn = Ok dn /\ py_int mn = Ok mn'
    /\ py_float (replace 44 46 sn) = Ok (F.of_decimal nn kn)
    /\ converte groups = Ok {|
         LATITUDE :=
           signed (u "S") hl (decimal_degrees dl ml' (F.of_decimal nl kl));
         LONGITUDE :=
           signed (u "W") hn (decimal_degrees dn mn' (F.of_decimal nn kn));
         LATITUDE_DMS := formata_dms gl ml (replace 44 46 sl) hl;
         LONGITUDE_DMS := formata_dms gn mn (replace 44 46 sn) hn |}.
Proof.
  intros [-> Hgl Hml Hsl Hhl Hgn Hmn Hsn Hhn] Wl Wn.
  destruct (py_int_ok _ gl Hgl) as [dl Hdl].
  destruct (py_int_ok _ ml Hml) as [ml' Hml'].
  destruct (py_int_ok _ gn Hgn) as [dn Hdn].
  destruct (py_int_ok _ mn Hmn) as [mn' Hmn'].
  destruct (py_float_ok sl (proj1 Hsl) Wl) as (nl & kl & Hfl).
  destruct (py_float_ok sn (proj1 Hsn) Wn) as (nn & kn & Hfn).
  exists dl, ml', nl, kl, dn, mn', nn, kn. repeat split; try done.
  unfold converte. rewrite Hdl, Hml', Hfl, Hdn, Hmn', Hfn. simpl.
  reflexivity.
Qed.

End ParserFacts.

Section ParserLoop.
Context `{R : PyRuntime}.

(** The loop returns the points of the matches, in order, when every
    match converts, and raises otherwise. *)
Lemma converte_todos_spec matches resultados res :
  converte_todos matches resultados = Ok res <->
  exists ps, Forall2 (fun m p => converte m = Ok p) matches ps
             /\ res = resultados ++ ps.
Proof.
  revert resultados.
  induction matches as [|m matches IH]; intros resultados; simpl.
  - split.
    + intros [= <-]. exists []. by rewrite app_nil_r.
    + intros (ps & ->%Forall2_nil_inv_l & ->). by rewrite app_nil_r.
  - destruct (converte m) as [p|e] eqn:Hm; simpl.
    + rewrite IH. split.
      * intros (ps & Hps & ->). exists (p :: ps). split; [by constructor|].
        by rewrite <- app_assoc.
      * intros (ps & Hps & ->).
        apply Forall2_cons_inv_l in Hps as (p' & ps' & Hp & Hps & ->).
        exists ps'. split; [done|]. rewrite <- app_assoc. simpl. congruence.
    + split; [discriminate|].
      intros (ps & Hps & _).
      apply Forall2_cons_inv_l in Hps as (p' & ps' & Hp & _). congruence.
Qed.

(** What a converted match holds as DMS texts. *)
Lemma converte_dms m p :
  converte m = Ok p ->
  exists gl ml sl hl gn mn sn hn,
    m = [gl; ml; sl; hl; gn; mn; sn; hn]
    /\ LATITUDE_DMS p = formata_dms gl ml (replace 44 46 sl) hl
    /\ LONGITUDE_DMS p = formata_dms gn mn (replace 44 46 sn) hn.
Proof.
  unfold converte.
  destruct m as [|gl [|ml [|sl [|hl [|gn [|mn [|sn [|hn [|? ?]]]]]]]]];
    try discriminate.
  destruct (py_int gl); [|discriminate]. simpl.
  destruct (py_int ml); [|discriminate]. simpl.
  destruct (py_float (replace 44 46 sl)); [|discriminate]. simpl.
  destruct (py_int gn); [|discriminate]. simpl.
  destruct (py_int mn); [|discriminate]. simpl.
  destruct (py_float (replace 44 46 sn)); [|discriminate]. simpl.
  intros [= <-]. by exists gl, ml, sl, hl, gn, mn, sn, hn.
Qed.

End ParserLoop.

Section ParserClaims.
Context `{R : PyRuntime} `{!UnicodeRuntime R}.

(** A text that is a sentinel once stripped and upper-cased holds no
    match of the pattern. *)
Lemma sentinela_sem_match s :
  str_in (upper (strip s)) sentinelas = true -> Re.findall padrao s = [].
Proof.
  intros Hs%str_in_elem. destruct (Re.findall padrao s) as [|g gs] eqn:Hf; [done|].
  exfalso. assert (Hg : g ∈ Re.findall padrao s) by (rewrite Hf; apply elem_of_cons; by left).
  apply findall_padrao in Hg as [_ Hq].
  apply (sentinelas_sem_apostrofo _ Hs).
  apply elem_upper; [by apply elem_strip|]. by rewrite upper_latin1.
Qed.

(** On a string the parser is the loop over the matches: the sentinel
    test changes nothing, as a sentinel has no match. *)
Lemma extrair_coordenadas_str s :
  extrair_coordenadas (PyStr s) = converte_todos (Re.findall padrao s) [].
Proof.
  unfold extrair_coordenadas. cbn [isna].
  destruct (str_in (upper (strip s)) sentinelas) eqn:Hs; [|reflexivity].
  by rewrite (sentinela_sem_match _ Hs).
Qed.

(** When the scan of the text finds exactly one match, whose seconds are
    well formed, the parser returns exactly one point, with the values of
    the specification. *)
Lemma parse_single_match s gl ml sl hl gn mn sn hn :
  Re.findall padrao s = [[gl; ml; sl; hl; gn; mn; sn; hn]] ->
  seconds_well_formed sl = true -> seconds_well_formed sn = true ->
  exists dl ml' nl kl dn mn' nn kn p,
    py_int gl = Ok dl /\ py_int ml = Ok ml'
    /\ py_float (replace 44 46 sl) = Ok (F.of_decimal nl kl)
    /\ py_int gn = Ok dn /\ py_int mn = Ok mn'
    /\ py_float (replace 44 46 sn) = Ok (F.of_decimal nn kn)
    /\ extrair_coordenadas (PyStr s) = Ok [p]
    /\ LATITUDE p
       = signed (u "S") hl (decimal_degrees dl ml' (F.of_decimal nl kl))
    /\ LONGITUDE p
       = signed (u "W") hn (decimal_degrees dn mn' (F.of_decimal nn kn)).
Proof.
  intros Hf Wl Wn.
  assert (Hin : [gl; ml; sl; hl; gn; mn; sn; hn] ∈ Re.findall padrao s)
    by (rewrite Hf; apply elem_of_cons; by left).
  apply findall_padrao in Hin as [(gl' & ml0 & sl' & hl' & gn' & mn0 & sn' & hn' & Hok) _].
  pose proof (g_eq _ _ _ _ _ _ _ _ _ Hok) as Heq.
  injection Heq as <- <- <- <- <- <- <- <-.
  destruct (converte_ok _ _ _ _ _ _ _ _ _ Hok Wl Wn)
    as (dl & ml' & nl & kl & dn & mn' & nn & kn & H1 & H2 & H3 & H4 & H5 & H6 & Hc).
  eexists dl, ml', nl, kl, dn, mn', nn, kn, _.
  repeat (split; [eassumption|]).
  rewrite extrair_coordenadas_str, Hf. cbn [converte_todos].
  rewrite Hc. repeat split.
Qed.

End ParserClaims.

(** * Latin-1 text: the result does not depend on the runtime *)

Section ReExt.

Lemma run_ext p q limit s :
  Forall (fun c => p c = q c) s -> Re.run p limit s = Re.run q limit s.
Proof.
  intros Hs. revert limit. induction Hs as [|c s Hc _ IH]; intros limit; simpl.
  - done.
  - rewrite Hc. destruct (q c); [|done].
    destruct limit as [[|k]|]; by rewrite ?IH.
Qed.

Lemma backtrack_ext {A} (try try' : nat -> option A) lo k :
  (forall j, j <= k -> try j = try' j) ->
  Re.backtrack try lo k = Re.backtrack try' lo k.
Proof.
  induction k as [|k IH]; intros Ht; simpl.
  - by rewrite (Ht 0).
  - rewrite (Ht (S k)) by lia. rewrite IH; [done|]. intros j Hj. apply Ht. lia.
Qed.

Lemma match_here_ext pat pat' s :
  Forall2 atom_agree pat pat' -> Latin1.text s ->
  Re.match_here pat s = Re.match_here pat' s.
Proof.
  intros Hp. revert s. induction Hp as [|a b pat pat' (Hmin & Hmax & Hg & Hc) _ IH];
    intros s Hs; simpl; [done|].
  rewrite Hmin, Hmax, Hg.
  rewrite (run_ext (a_class a) (a_class b)).
  2:{ eapply Forall_impl; [exact Hs|]. intros c Hlt. by apply Hc. }
  apply backtrack_ext. intros j _. rewrite IH; [done|].
  by apply Forall_drop.
Qed.

Lemma scan_ext pat pat' skip s :
  Forall2 atom_agree pat pat' -> Latin1.text s ->
  Re.scan pat skip s = Re.scan pat' skip s.
Proof.
  intros Hp Hs. revert skip. induction Hs as [|c s Hc Hs IH]; intros skip; simpl.
  - rewrite (match_here_ext pat pat' [] Hp); [done|constructor].
  - destruct skip; [|done].
    rewrite (match_here_ext pat pat' (c :: s) Hp); [|by constructor].
    destruct (Re.match_here pat' (c :: s)) as [[gs n]|]; by rewrite IH.
Qed.

Lemma elem_captured pat pieces g : g ∈ captured pat pieces -> g ∈ pieces.
Proof.
  revert pieces. induction pat as [|a pat IH]; intros [|x pieces]; simpl;
    try by intros ?%elem_of_nil.
  destruct (a_group a).
  - intros [->|Hg]%elem_of_cons; apply elem_of_cons; [by left|right; auto].
  - intros Hg. apply elem_of_cons. right; auto.
Qed.

Lemma elem_concat (c : N) g pieces : g ∈ pieces -> c ∈ g -> c ∈ concat pieces.
Proof.
  intros Hg Hc. induction pieces as [|x pieces IH]; simpl.
  - by apply elem_of_nil in Hg.
  - apply elem_of_app. apply elem_of_cons in Hg as [<-|Hg]; [by left|right; auto].
Qed.

(** The groups of a match are made of characters of the text. *)
Lemma scan_groups_text pat skip s groups :
  groups ∈ Re.scan pat skip s -> Latin1.text s -> Forall Latin1.text groups.
Proof.
  intros Hin Hs. apply scan_sound in Hin as (s' & n & [pre ->] & Hm).
  apply match_here_sound in Hm as (pieces & _ & Htake & _ & ->).
  apply Forall_forall. intros g Hg%elem_captured.
  apply Forall_forall. intros c Hc.
  assert (Hcs : c ∈ take n s').
  { rewrite Htake. by apply (elem_concat c g). }
  apply (subseteq_take n s') in Hcs.
  apply (proj1 (Forall_forall _ _) Hs). apply elem_of_app. by right.
Qed.

End ReExt.

#[global] Instance latin1_unicode : UnicodeRuntime Latin1.runtime.
Proof.
  split; [done|done|]. intros c Hc. simpl. unfold Latin1.decimal, isspace in *.
  destruct ((48 <=? c)%N && (c <=? 57)%N) eqn:E; [|done].
  exfalso. bool_to_prop. lia.
Qed.

Section RuntimeExt.
Context `{R : PyRuntime} `{!UnicodeRuntime R}.

Lemma isdecimal_ext c :
  (c < 256)%N -> @isdecimal R c = @isdecimal Latin1.runtime c.
Proof. intros Hc. unfold isdecimal. by rewrite decimal_latin1. Qed.

Lemma padrao_agree : Forall2 atom_agree (@padrao R) (@padrao Latin1.runtime).
Proof.
  unfold padrao, dms. simpl.
  repeat (constructor; [repeat split; simpl; try done|]); try constructor;
    intros c Hc; auto using isdecimal_ext;
    unfold cls_seconds, either; by rewrite isdecimal_ext.
Qed.

Lemma findall_ext s :
  Latin1.text s ->
  Re.findall (@padrao R) s = Re.findall (@padrao Latin1.runtime) s.
Proof. apply scan_ext, padrao_agree. Qed.

Lemma digits_value_ext acc s :
  Latin1.text s ->
  @digits_value R acc s = @digits_value Latin1.runtime acc s.
Proof.
  intros Hs. revert acc. induction Hs as [|c s Hc _ IH]; intros acc; simpl.
  - done.
  - rewrite (decimal_latin1 c Hc). simpl. destruct (Latin1.decimal c); auto.
Qed.

Lemma py_int_ext s :
  Latin1.text s -> @py_int R s = @py_int Latin1.runtime s.
Proof. intros Hs. unfold py_int. by rewrite digits_value_ext. Qed.

Lemma split_point_text s a b :
  Latin1.text s -> split_point s = (a, b) ->
  Latin1.text a /\ forall fp, b = Some fp -> Latin1.text fp.
Proof.
  intros Hs. revert a b. induction Hs as [|c s Hc Hs IH]; intros a b; simpl.
  - intros [= <- <-]. split; [constructor|discriminate].
  - destruct (c =? 46)%N.
    + intros [= <- <-]. split; [constructor|]. by intros fp [= <-].
    + destruct (split_point s) as [a' b'] eqn:Hsp. intros [= <- <-].
      destruct (IH a' b' eq_refl) as [Ha Hb]. split; [by constructor|done].
Qed.

Lemma py_float_ext s :
  Latin1.text s -> @py_float R s = @py_float Latin1.runtime s.
Proof.
  intros Hs. unfold py_float.
  destruct (split_point s) as [ip [fp|]] eqn:Hsp;
    destruct (split_point_text _ _ _ Hs Hsp) as [Hip Hfp].
  - rewrite digits_value_ext; [done|].
    apply Forall_app. split; [done|]. by apply Hfp.
  - by rewrite digits_value_ext.
Qed.

Lemma upper_ext s : Latin1.text s -> @upper R s = @upper Latin1.runtime s.
Proof.
  intros Hs. unfold upper. f_equal. apply map_ext_Forall.
  eapply Forall_impl; [exact Hs|]. intros c Hc. simpl. by apply upper_latin1.
Qed.

Lemma replace_text s : Latin1.text s -> Latin1.text (replace 44 46 s).
Proof.
  intros Hs. unfold replace. apply Forall_map.
  eapply Forall_impl; [exact Hs|]. intros c Hc. simpl.
  destruct (c =? 44)%N; [done|exact Hc].
Qed.

Lemma converte_ext m :
  Forall Latin1.text m -> @converte R m = @converte Latin1.runtime m.
Proof.
  intros Hm. unfold converte.
  destruct m as [|gl [|ml [|sl [|hl [|gn [|mn [|sn [|hn [|? ?]]]]]]]]];
    try done.
  repeat match goal with
         | Hf : Forall _ (_ :: _) |- _ => apply Forall_cons in Hf as [? Hf]
         end.
  rewrite !py_int_ext, !py_float_ext, !upper_ext by auto using replace_text.
  done.
Qed.

Lemma converte_todos_ext matches resultados :
  Forall (Forall Latin1.text) matches ->
  @converte_todos R matches resultados
  = @converte_todos Latin1.runtime matches resultados.
Proof.
  intros Hm. revert resultados.
  induction Hm as [|m matches Hm _ IH]; intros resultados; simpl; [done|].
  rewrite (converte_ext _ Hm).
  destruct (@converte Latin1.runtime m); simpl; [apply IH|done].
Qed.

(** On Latin-1 text every runtime gives the result of the Latin-1
    tables. *)
Lemma extrair_coordenadas_latin1 s :
  Latin1.text s ->
  @extrair_coordenadas R (PyStr s)
  = @extrair_coordenadas Latin1.runtime (PyStr s).
Proof.
  intros Hs. rewrite !extrair_coordenadas_str, findall_ext by done.
  apply converte_todos_ext. apply Forall_forall. intros g Hg.
  by apply (scan_groups_text _ _ _ _ Hg).
Qed.

End RuntimeExt.

Ltac latin1_text :=
  unfold Latin1.text; refine (bool_decide_unpack _ _); vm_compute; exact I.

Section ParserExamples.
Context `{R : PyRuntime} `{!UnicodeRuntime R}.

(** C7. The DMS texts of the points returned are, match by match, the
    captured degrees, the sign [º], the captured minutes, an apostrophe,
    the captured seconds with every comma replaced by a point, a double
    quote and the hemisphere letter as captured; the sign written is [º]
    whichever degree sign the text has.  In particular the latitude
    3º03'52,9838''S of the example is given back as 3º03'52.9838''S
    (with the double quote for the two apostrophes). *)
Theorem dms_reconstruction :
  (forall s res,
     extrair_coordenadas (PyStr s) = Ok res ->
     Forall2
       (fun groups p =>
          exists gl ml sl hl gn mn sn hn,
            groups = [gl; ml; sl; hl; gn; mn; sn; hn]
            /\ LATITUDE_DMS p
               = gl ++ u "º" ++ ml ++ u "'" ++ replace 44 46 sl ++ dquote ++ hl
            /\ LONGITUDE_DMS p
               = gn ++ u "º" ++ mn ++ u "'" ++ replace 44 46 sn ++ dquote ++ hn)
       (Re.findall padrao s) res)
  /\ (forall s, s = exemplo \/ s = exemplo_grau ->
      exists p,
        extrair_coordenadas (PyStr s) = Ok [p]
        /\ LATITUDE_DMS p = u "3º03'52.9838" ++ dquote ++ u "S"
        /\ LONGITUDE_DMS p = u "59º54'46.6013" ++ dquote ++ u "W").
Proof.
  split.
  - intros s res. rewrite extrair_coordenadas_str.
    intros (ps & Hps & ->)%converte_todos_spec. simpl.
    eapply Forall2_impl; [exact Hps|]. intros m p Hm.
    apply converte_dms in Hm as (gl & ml & sl & hl & gn & mn & sn & hn & -> & Hlat & Hlon).
    by exists gl, ml, sl, hl, gn, mn, sn, hn.
  - intros s [->| ->]; rewrite extrair_coordenadas_latin1 by latin1_text;
      eexists; (split; [vm_compute; reflexivity|]); split; vm_compute; reflexivity.
Qed.

End ParserExamples.


(** * The exceptions of the parser *)

Section ParserRaises.
Context `{R : PyRuntime}.

Lemma digits_value_raises acc s e :
  digits_value acc s = Raise e -> e = ValueError.
Proof.
  revert acc. induction s as [|c s IH]; intros acc; simpl; [discriminate|].
  destruct (uni_decimal c); [apply IH|]. by intros [= <-].
Qed.

Lemma py_int_raises s e : py_int s = Raise e -> e = ValueError.
Proof.
  unfold py_int. destruct s; [by intros [= <-]|].
  destruct (digits_value 0 _) eqn:E; [discriminate|]. simpl.
  intros [= <-]. by apply digits_value_raises in E.
Qed.

Lemma py_float_raises s e : py_float s = Raise e -> e = ValueError.
Proof.
  unfold py_float. destruct (split_point s) as [ip [fp|]].
  - destruct ip, fp; try (by intros [= <-]);
      (destruct (digits_value 0 _) eqn:E; [discriminate|]); simpl;
      intros [= <-]; by apply digits_value_raises in E.
  - destruct ip; [by intros [= <-]|].
    destruct (digits_value 0 _) eqn:E; [discriminate|]. simpl.
    intros [= <-]. by apply digits_value_raises in E.
Qed.

Lemma converte_raises m e : converte m = Raise e -> e = ValueError.
Proof.
  unfold converte.
  destruct m as [|gl [|ml [|sl [|hl [|gn [|mn [|sn [|hn [|? ?]]]]]]]]];
    try (by intros [= <-]).
  destruct (py_int gl) eqn:E1; simpl;
    [|intros [= <-]; by apply py_int_raises in E1].
  destruct (py_int ml) eqn:E2; simpl;
    [|intros [= <-]; by apply py_int_raises in E2].
  destruct (py_float (replace 44 46 sl)) eqn:E3; simpl;
    [|intros [= <-]; by apply py_float_raises in E3].
  destruct (py_int gn) eqn:E4; simpl;
    [|intros [= <-]; by apply py_int_raises in E4].
  destruct (py_int mn) eqn:E5; simpl;
    [|intros [= <-]; by apply py_int_raises in E5].
  destruct (py_float (replace 44 46 sn)) eqn:E6; simpl;
    [discriminate|intros [= <-]; by apply py_float_raises in E6].
Qed.

Lemma converte_todos_raises matches resultados e :
  converte_todos matches resultados = Raise e -> e = ValueError.
Proof.
  revert resultados. induction matches as [|m matches IH]; intros resultados;
    simpl; [discriminate|].
  destruct (converte m) eqn:E; simpl; [apply IH|].
  intros [= <-]. by apply converte_raises in E.
Qed.

(** On a string the parser returns, or raises [ValueError]. *)
Lemma extrair_coordenadas_raises s e :
  extrair_coordenadas (PyStr s) = Raise e -> e = ValueError.
Proof.
  unfold extrair_coordenadas. cbn [isna].
  destruct (str_in _ _); [discriminate|]. apply converte_todos_raises.
Qed.
End ParserRaises.

(** * One pair in a text *)

Section SinglePair.
Context `{R : PyRuntime} `{!UnicodeRuntime R}.

Lemma digits_value_inv acc s n :
  digits_value acc s = Ok n -> Forall (fun c => isdecimal c = true) s.
Proof.
  revert acc. induction s as [|c s IH]; intros acc; simpl; [constructor|].
  destruct (uni_decimal c) eqn:E; [|discriminate].
  intros Hs. constructor; [|by eapply IH]. unfold isdecimal. by rewrite E.
Qed.

Lemma split_point_app s ip b :
  split_point s = (ip, b) ->
  s = ip ++ match b with Some fp => 46%N :: fp | None => [] end.
Proof.
  revert ip b. induction s as [|c s IH]; intros ip b; simpl.
  - by intros [= <- <-].
  - destruct (c =? 46)%N eqn:E.
    + intros [= <- <-]. by apply N.eqb_eq in E as ->.
    + destruct (split_point s) as [a b'] eqn:Hs. intros [= <- <-].
      simpl. f_equal. by apply IH.
Qed.

Lemma separators_decimal s :
  Forall (fun c => isdecimal c = true) s -> separators s = 0.
Proof.
  induction 1 as [|c s Hc _ IH]; simpl; [done|].
  destruct (is_separator c) eqn:E; [|done].
  by rewrite (separator_not_decimal c E) in Hc.
Qed.

(** What [float] reads is well formed. *)
Lemma py_float_well_formed s f :
  py_float s = Ok f -> seconds_well_formed s = true.
Proof.
  unfold py_float. destruct (split_point s) as [ip [fp|]] eqn:Hsp;
    apply split_point_app in Hsp as ->.
  - intros Hf.
    assert (Hd : exists n, ip ++ fp <> [] /\ digits_value 0 (ip ++ fp) = Ok n).
    { destruct ip, fp; try discriminate;
        (destruct (digits_value 0 _) as [v|] eqn:E; [|discriminate]);
        exists v; by split. }
    destruct Hd as (n & Hne & Hn). apply digits_value_inv in Hn.
    pose proof Hn as [Hip Hfp]%Forall_app.
    assert (He : existsb isdecimal (ip ++ fp) = true).
    { destruct (ip ++ fp) as [|c t]; [done|].
      apply Forall_cons in Hn as [Hc _]. simpl. by rewrite Hc. }
    rewrite existsb_app in He.
    unfold seconds_well_formed. rewrite separators_app, existsb_app. simpl.
    rewrite (separators_decimal _ Hip), (separators_decimal _ Hfp).
    change (is_separator 46) with true. simpl.
    destruct (existsb isdecimal ip), (existsb isdecimal fp); simpl in *;
      try done; by rewrite orb_true_r.
  - rewrite app_nil_r. destruct ip as [|c ip]; [discriminate|].
    destruct (digits_value 0 _) as [v|] eqn:E; [|discriminate]. intros _.
    apply digits_value_inv in E. unfold seconds_well_formed.
    rewrite (separators_decimal _ E). simpl.
    apply Forall_cons in E as [Hc _]. by rewrite Hc.
Qed.

Lemma converte_float gl ml sl hl gn mn sn hn p :
  converte [gl; ml; sl; hl; gn; mn; sn; hn] = Ok p ->
  (exists f, py_float (replace 44 46 sl) = Ok f)
  /\ (exists f, py_float (replace 44 46 sn) = Ok f).
Proof.
  unfold converte.
  destruct (py_int gl); [|discriminate]. simpl.
  destruct (py_int ml); [|discriminate]. simpl.
  destruct (py_float (replace 44 46 sl)) as [f1|]; [|discriminate]. simpl.
  destruct (py_int gn); [|discriminate]. simpl.
  destruct (py_int mn); [|discriminate]. simpl.
  destruct (py_float (replace 44 46 sn)) as [f2|]; [|discriminate].
  intros _. split; by eexists.
Qed.

Lemma separators_replace s : separators (replace 44 46 s) = separators s.
Proof.
  induction s as [|c s IH]; [done|]. rewrite replace_cons. simpl.
  rewrite IH. f_equal. unfold is_separator.
  destruct (c =? 44)%N eqn:E; [done|]. by rewrite E.
Qed.

Lemma existsb_replace s :
  existsb isdecimal (replace 44 46 s) = existsb isdecimal s.
Proof.
  induction s as [|c s IH]; [done|]. rewrite replace_cons. simpl.
  rewrite IH. f_equal. destruct (c =? 44)%N eqn:E; [|done].
  apply N.eqb_eq in E as ->.
  by rewrite !separator_not_decimal.
Qed.

(** A match whose seconds are not well formed does not convert. *)
Lemma converte_ill_formed gl ml sl hl gn mn sn hn :
  seconds_well_formed sl = false \/ seconds_well_formed sn = false ->
  converte [gl; ml; sl; hl; gn; mn; sn; hn] = Raise ValueError.
Proof.
  intros Hw.
  destruct (converte [gl; ml; sl; hl; gn; mn; sn; hn]) as [p|e] eqn:Hc.
  - apply converte_float in Hc as [[f1 H1] [f2 H2]].
    apply py_float_well_formed in H1, H2.
    unfold seconds_well_formed in *.
    rewrite separators_replace, existsb_replace in H1, H2.
    destruct Hw; congruence.
  - by apply converte_raises in Hc as ->.
Qed.

(** The loop raises when one of the matches does not convert. *)
Lemma converte_todos_one_raises matches resultados m :
  m ∈ matches -> converte m = Raise ValueError ->
  converte_todos matches resultados = Raise ValueError.
Proof.
  intros Hin Hm.
  destruct (converte_todos matches resultados) as [res|e] eqn:Hc.
  - apply converte_todos_spec in Hc as (ps & Hps & _).
    apply list_elem_of_lookup in Hin as [i Hi].
    destruct (Forall2_lookup_l _ _ _ _ _ Hps Hi) as (p & _ & Hp). congruence.
  - by apply converte_todos_raises in Hc as ->.
Qed.

(** C1 (defect).  (1) Whenever the scan of the text for the pattern
    finds exactly one pair, with well-formed seconds, the parser returns
    exactly one point, whose latitude is degrees + minutes/60 +
    seconds/3600 for the numbers read from the pair, negated when its
    hemisphere letter upper-cased is S, and whose longitude is the like,
    negated when its letter upper-cased is W; (2) such is every text
    made of a prefix without digits, a latitude and a longitude written
    by the grammar with separators between them, and a suffix without
    apostrophe.  But (3) the parser raises [ValueError] and returns no
    point on every text in which the scan also finds a match whose
    seconds are not well formed; and (4) such is the example followed by
    a second pair with the seconds [2,,]: the text holds exactly one
    well-formed pair, which alone gives one point, and the parser
    raises on it. *)
Theorem parse_single_pair :
  (forall s gl ml sl hl gn mn sn hn,
     Re.findall padrao s = [[gl; ml; sl; hl; gn; mn; sn; hn]] ->
     seconds_well_formed sl = true -> seconds_well_formed sn = true ->
     exists dl ml' nl kl dn mn' nn kn p,
       py_int gl = Ok dl /\ py_int ml = Ok ml'
       /\ py_float (replace 44 46 sl) = Ok (F.of_decimal nl kl)
       /\ py_int gn = Ok dn /\ py_int mn = Ok mn'
       /\ py_float (replace 44 46 sn) = Ok (F.of_decimal nn kn)
       /\ extrair_coordenadas (PyStr s) = Ok [p]
       /\ LATITUDE p
          = signed (u "S") hl (decimal_degrees dl ml' (F.of_decimal nl kl))
       /\ LONGITUDE p
          = signed (u "W") hn (decimal_degrees dn mn' (F.of_decimal nn kn)))
  /\ (forall pre lat sep lon post,
        coordinate_ok (u "NS") lat -> coordinate_ok (u "WO") lon ->
        Forall (fun c => cls_sep c = true) sep ->
        Forall (fun c => isdecimal c = false) pre -> 39%N ∉ post ->
        Re.findall padrao
          (pre ++ coordinate_text lat ++ sep ++ coordinate_text lon ++ post)
        = [[c_graus lat; c_min lat; c_seg lat; [c_hem lat];
            c_graus lon; c_min lon; c_seg lon; [c_hem lon]]]
        /\ seconds_well_formed (c_seg lat) = true
        /\ seconds_well_formed (c_seg lon) = true)
  /\ (forall s gl ml sl hl gn mn sn hn,
        [gl; ml; sl; hl; gn; mn; sn; hn] ∈ Re.findall padrao s ->
        seconds_well_formed sl = false \/ seconds_well_formed sn = false ->
        extrair_coordenadas (PyStr s) = Raise ValueError)
  /\ (Re.findall padrao texto_par_e_defeito
      = [ [u "3"; u "03"; u "52,9838"; u "S";
           u "59"; u "54"; u "46,6013"; u "W"];
          [u "1"; u "1"; u "2,,"; u "N"; u "1"; u "1"; u "1"; u "W"] ]
      /\ seconds_well_formed (u "52,9838") = true
      /\ seconds_well_formed (u "46,6013") = true
      /\ seconds_well_formed (u "2,,") = false
      /\ (exists p, extrair_coordenadas (PyStr exemplo) = Ok [p])
      /\ extrair_coordenadas (PyStr texto_par_e_defeito) = Raise ValueError).
Proof.
  split; [apply parse_single_match|]. split; [|split].
  - intros pre lat sep lon post Hlat Hlon Hsep Hpre Hpost.
    split; [by apply findall_rendered|].
    split; [apply Hlat|apply Hlon].
  - intros s gl ml sl hl gn mn sn hn Hin Hw.
    rewrite extrair_coordenadas_str.
    eapply converte_todos_one_raises; [exact Hin|].
    by apply converte_ill_formed.
  - split; [rewrite findall_ext by latin1_text; by vm_compute|].
    assert (Hwf : forall s, Latin1.text s ->
              seconds_well_formed s = @seconds_well_formed Latin1.runtime s).
    { intros s Hs. unfold seconds_well_formed. f_equal.
      induction Hs as [|c s Hc _ IH]; [done|]. simpl.
      by rewrite IH, isdecimal_ext. }
    split; [rewrite Hwf by latin1_text; by vm_compute|].
    split; [rewrite Hwf by latin1_text; by vm_compute|].
    split; [rewrite Hwf by latin1_text; by vm_compute|].
    split.
    + rewrite extrair_coordenadas_latin1 by latin1_text.
      eexists. vm_compute. reflexivity.
    + rewrite extrair_coordenadas_latin1 by latin1_text. by vm_compute.
Qed.

End SinglePair.

(** * Stripping and sentinels *)

Section StripFacts.

Lemma lstrip_spaces ws : Forall (fun c => isspace c = true) ws -> lstrip ws = [].
Proof. induction 1 as [|c ws Hc _ IH]; simpl; [done|]. by rewrite Hc. Qed.

Lemma lstrip_app_spaces ws s :
  Forall (fun c => isspace c = true) ws -> lstrip (ws ++ s) = lstrip s.
Proof. induction 1 as [|c ws Hc _ IH]; simpl; [done|]. by rewrite Hc. Qed.

Lemma lstrip_head s :
  (forall c, head s = Some c -> isspace c = false) -> lstrip s = s.
Proof. destruct s as [|c s]; simpl; [done|]. intros Hc. by rewrite (Hc c). Qed.

(** White space around a text whose ends are not white space is what
    [strip] removes. *)
Lemma strip_pad ws1 s ws2 :
  Forall (fun c => isspace c = true) ws1 ->
  Forall (fun c => isspace c = true) ws2 ->
  (forall c, head s = Some c -> isspace c = false) ->
  (forall c, last s = Some c -> isspace c = false) ->
  strip (ws1 ++ s ++ ws2) = s.
Proof.
  intros H1 H2 Hh Hl. unfold strip, rstrip.
  rewrite (lstrip_app_spaces _ _ H1).
  destruct s as [|c s].
  - simpl. by rewrite (lstrip_spaces _ H2).
  - replace (lstrip ((c :: s) ++ ws2)) with ((c :: s) ++ ws2)
      by (simpl; by rewrite (Hh c)).
    rewrite reverse_app, lstrip_app_spaces by (by apply Forall_reverse).
    rewrite lstrip_head; [by rewrite reverse_involutive|].
    intros d. rewrite head_reverse. apply Hl.
Qed.

Lemma latin1_upper_space c : isspace c = true -> Latin1.upper c = [c].
Proof.
  unfold isspace, Latin1.upper. intros Hc.
  repeat match goal with
         | |- context [if ?b then _ else _] =>
           let E := fresh in destruct b eqn:E; [exfalso; bool_to_prop; lia|]
         end.
  done.
Qed.

Lemma latin1_upper_below c d :
  Latin1.upper c = [d] -> (d < 256)%N -> (c < 256)%N.
Proof.
  unfold Latin1.upper.
  repeat match goal with
         | |- context [if ?b then _ else _] =>
           let E := fresh in
           destruct b eqn:E; [intros _ _; bool_to_prop; lia|]
         end.
  by intros [= ->].
Qed.

Lemma caseless_head s t c :
  Latin1.caseless s t -> head s = Some c ->
  exists d, head t = Some d /\ Latin1.upper c = [d].
Proof. intros [|c' d s' t' Hc _]; simpl; [done|]. intros [= <-]. by exists d. Qed.

Lemma caseless_last s t c :
  Latin1.caseless s t -> last s = Some c ->
  exists d, last t = Some d /\ Latin1.upper c = [d].
Proof.
  intros Hst. induction Hst as [|c' d s' t' Hc Hst IH]; [done|].
  destruct Hst as [|c2 d2 s2 t2 Hc2 Hst]; simpl in *.
  - intros [= <-]. by exists d.
  - apply IH.
Qed.

End StripFacts.

Section SentinelClaims.
Context `{R : PyRuntime} `{!UnicodeRuntime R}.

Lemma sentinela_ends t :
  t ∈ sentinelas ->
  Latin1.text t
  /\ (forall d, head t = Some d -> isspace d = false)
  /\ (forall d, last t = Some d -> isspace d = false).
Proof.
  unfold sentinelas. rewrite !elem_of_cons, elem_of_nil.
  intros [->|[->|[->|[->|[]]]]]; (split; [latin1_text|]);
    split; intros d Hd; vm_compute in Hd; try discriminate Hd;
    by injection Hd as <-.
Qed.

Lemma caseless_upper s t :
  Latin1.caseless s t -> Latin1.text t -> upper s = t.
Proof.
  intros Hst. induction Hst as [|c d s t Hc _ IH]; [done|].
  intros [Hd Ht]%Forall_cons. unfold upper in *. simpl.
  rewrite upper_latin1 by (by apply (latin1_upper_below c d)).
  rewrite Hc, (IH Ht). done.
Qed.

(** C9. The parser returns the empty list when the input is missing
    (None or NaN) and when the text, stripped and upper-cased, is one of
    the sentinels NÃO CONSTA, NAO CONSTA, NOT INFORMED and the empty
    string; so it does for a sentinel written in any case of its letters
    with any white space around it. *)
Theorem sentinel_inputs :
  (forall texto, isna texto = true -> extrair_coordenadas texto = Ok [])
  /\ (forall s, upper (strip s) ∈ sentinelas ->
                extrair_coordenadas (PyStr s) = Ok [])
  /\ (forall t s ws1 ws2,
        t ∈ [u "NÃO CONSTA"; u "NAO CONSTA"; u "NOT INFORMED"; []] ->
        Latin1.caseless s t ->
        Forall (fun c => isspace c = true) ws1 ->
        Forall (fun c => isspace c = true) ws2 ->
        extrair_coordenadas (PyStr (ws1 ++ s ++ ws2)) = Ok []).
Proof.
  assert (Hsent : forall s, upper (strip s) ∈ sentinelas ->
                            extrair_coordenadas (PyStr s) = Ok []).
  { intros s Hs%str_in_elem. unfold extrair_coordenadas. cbn [isna].
    by rewrite Hs. }
  split; [|split; [exact Hsent|]].
  - intros texto Hna. unfold extrair_coordenadas. by rewrite Hna.
  - intros t s ws1 ws2 Ht Hst H1 H2. apply Hsent.
    destruct (sentinela_ends t Ht) as (Htext & Hh & Hl).
    rewrite strip_pad; try done.
    + by rewrite (caseless_upper s t).
    + intros c Hc. destruct (caseless_head _ _ _ Hst Hc) as (d & Hd & Hcd).
      destruct (isspace c) eqn:Ec; [|done].
      rewrite (latin1_upper_space c Ec) in Hcd. injection Hcd as <-.
      by rewrite (Hh c Hd) in Ec.
    + intros c Hc. destruct (caseless_last _ _ _ Hst Hc) as (d & Hd & Hcd).
      destruct (isspace c) eqn:Ec; [|done].
      rewrite (latin1_upper_space c Ec) in Hcd. injection Hcd as <-.
      by rewrite (Hl c Hd) in Ec.
Qed.

End SentinelClaims.

(** * Signs of the floats *)

Section FloatFacts.

Lemma shr_1_nonneg mrs : (0 <= shr_m mrs)%Z -> (0 <= shr_m (shr_1 mrs))%Z.
Proof.
  destruct mrs as [m r s]. simpl. destruct m as [|p|p]; simpl; try lia.
  destruct p; simpl; lia.
Qed.

Lemma iter_shr_1_nonneg p mrs :
  (0 <= shr_m mrs)%Z -> (0 <= shr_m (SpecFloat.iter_pos shr_1 p mrs))%Z.
Proof.
  revert mrs. induction p as [p IH|p IH|]; intros mrs Hm; simpl.
  - apply IH, IH. by apply shr_1_nonneg.
  - by apply IH, IH.
  - by apply shr_1_nonneg.
Qed.

Lemma shr_fexp_nonneg prec emax m e l :
  (0 <= m)%Z -> (0 <= shr_m (fst (shr_fexp prec emax m e l)))%Z.
Proof.
  intros Hm. unfold shr_fexp, shr.
  assert (H0 : (0 <= shr_m (shr_record_of_loc m l))%Z).
  { destruct l as [|[]]; simpl; lia. }
  destruct (_ - e)%Z; simpl; try done. by apply iter_shr_1_nonneg.
Qed.

Lemma round_nearest_even_nonneg m l :
  (0 <= m)%Z -> (0 <= round_nearest_even m l)%Z.
Proof.
  intros Hm. destruct l as [|[]]; simpl; try lia. destruct (Z.even m); lia.
Qed.

(** Rounding a magnitude keeps the sign given, and gives a number. *)
Lemma binary_round_aux_sign prec emax sx mx ex lx :
  (0 <= mx)%Z -> F.has_sign sx (binary_round_aux prec emax sx mx ex lx).
Proof.
  intros Hm. unfold binary_round_aux.
  pose proof (shr_fexp_nonneg prec emax mx ex lx Hm) as H1.
  destruct (shr_fexp prec emax mx ex lx) as [mrs' e'] eqn:E1. simpl in H1.
  pose proof (shr_fexp_nonneg prec emax _ e' loc_Exact
                (round_nearest_even_nonneg _ (loc_of_shr_record mrs') H1)) as H2.
  destruct (shr_fexp prec emax _ e' loc_Exact) as [mrs'' e''] eqn:E2.
  simpl in H2.
  destruct (shr_m mrs''); simpl; try done; try lia.
  destruct (_ <=? _)%Z; done.
Qed.

Lemma binary_round_sign prec emax sx mx ex :
  F.has_sign sx (binary_round prec emax sx mx ex).
Proof.
  unfold binary_round. destruct (shl_align _ _ _) as [mz ez].
  by apply binary_round_aux_sign.
Qed.

Lemma of_int_sign z : (0 <= z)%Z -> F.has_sign false (F.of_int z).
Proof.
  intros Hz. unfold F.of_int, binary_normalize.
  destruct z; [done|apply binary_round_sign|lia].
Qed.

Lemma div_core_nonneg prec emax m1 e1 m2 e2 :
  (0 <= fst (fst (SFdiv_core_binary prec emax (Z.pos m1) e1 (Z.pos m2) e2)))%Z.
Proof.
  unfold SFdiv_core_binary.
  set (s := (e1 - e2 - _)%Z).
  set (m' := match s with Z.pos _ => _ | 0%Z => _ | Z.neg _ => _ end).
  assert (Hm : (0 <= m')%Z).
  { unfold m'. destruct s; try lia. apply Z.shiftl_nonneg. lia. }
  pose proof (Z.div_pos m' (Z.pos m2) Hm eq_refl) as Hq.
  unfold Z.div in Hq. destruct (Z.div_eucl m' (Z.pos m2)) as [q r]. exact Hq.
Qed.

(** A quotient of numbers without sign by a positive float is a number
    without sign. *)
Lemma div_sign x my ey :
  F.has_sign false x -> F.has_sign false (F.div x (S754_finite false my ey)).
Proof.
  destruct x as [s|s| |s mx ex]; simpl; try done; intros ->; try done.
  pose proof (div_core_nonneg F.prec F.emax mx ex my ey) as Hq.
  destruct (SFdiv_core_binary _ _ _ _ _ _) as [[mz ez] lz]. simpl in Hq.
  by apply binary_round_aux_sign.
Qed.

Lemma add_sign x y :
  F.has_sign false x -> F.has_sign false y -> F.has_sign false (F.add x y).
Proof.
  destruct x as [sx|sx| |sx mx ex], y as [sy|sy| |sy my ey]; simpl;
    try done; intros ->; try done; intros ->; try done.
  unfold F.add, SFadd, cond_Zopp.
  change (Z.pos ?a + Z.pos ?b)%Z with (Z.pos (a + b)).
  apply binary_round_sign.
Qed.

Lemma opp_sign s x : F.has_sign s x -> F.has_sign (negb s) (F.opp x).
Proof. destruct x; simpl; try done; by intros <-. Qed.

Lemma of_decimal_sign n k : F.has_sign false (F.of_decimal n k).
Proof.
  unfold F.of_decimal. destruct n as [|p]; [done|].
  apply (div_sign (S754_finite false p 0)). done.
Qed.

Lemma decimal_degrees_sign g m s :
  (0 <= g)%Z -> (0 <= m)%Z -> F.has_sign false s ->
  F.has_sign false (decimal_degrees g m s).
Proof.
  intros Hg Hm Hs. unfold decimal_degrees.
  change (F.of_int 60) with (S754_finite false 8444249301319680 (-47)).
  change (F.of_int 3600) with (S754_finite false 7916483719987200 (-41)).
  apply add_sign; [apply add_sign|]; auto using of_int_sign, div_sign.
Qed.

(** A number without sign is not below zero, and one with the sign is
    not above. *)
Lemma sign_compare s x :
  F.has_sign s x ->
  if s then F.leb x F.zero = true /\ F.ltb F.zero x = false
  else F.leb F.zero x = true /\ F.ltb x F.zero = false.
Proof. destruct x as [[]|[]| |[] ? ?], s; simpl; try done. Qed.

End FloatFacts.

Section SignFacts.
Context `{R : PyRuntime}.

Lemma py_int_nonneg s z : py_int s = Ok z -> (0 <= z)%Z.
Proof.
  unfold py_int. destruct s; [discriminate|].
  destruct (digits_value 0 _); [|discriminate]. intros [= <-]. lia.
Qed.

Lemma py_float_sign s f : py_float s = Ok f -> F.has_sign false f.
Proof.
  unfold py_float. destruct (split_point s) as [ip [fp|]].
  - destruct ip, fp; try discriminate;
      (destruct (digits_value 0 _); [|discriminate]);
      intros [= <-]; apply of_decimal_sign.
  - destruct ip; [discriminate|].
    destruct (digits_value 0 _); [|discriminate].
    intros [= <-]. apply of_decimal_sign.
Qed.

(** The sign of each decimal value of a converted match is set exactly
    when the comparison of its hemisphere letter succeeds: with S for
    the latitude, with W for the longitude. *)
Lemma converte_signs m p :
  converte m = Ok p ->
  exists gl ml sl hl gn mn sn hn,
    m = [gl; ml; sl; hl; gn; mn; sn; hn]
    /\ F.has_sign (bool_decide (upper hl = u "S")) (LATITUDE p)
    /\ F.has_sign (bool_decide (upper hn = u "W")) (LONGITUDE p).
Proof.
  unfold converte.
  destruct m as [|gl [|ml [|sl [|hl [|gn [|mn [|sn [|hn [|? ?]]]]]]]]];
    try discriminate.
  destruct (py_int gl) as [g1|] eqn:Hg1; [|discriminate]. simpl.
  destruct (py_int ml) as [m1|] eqn:Hm1; [|discriminate]. simpl.
  destruct (py_float (replace 44 46 sl)) as [s1|] eqn:Hs1; [|discriminate].
  simpl.
  destruct (py_int gn) as [g2|] eqn:Hg2; [|discriminate]. simpl.
  destruct (py_int mn) as [m2|] eqn:Hm2; [|discriminate]. simpl.
  destruct (py_float (replace 44 46 sn)) as [s2|] eqn:Hs2; [|discriminate].
  simpl. intros [= <-]. exists gl, ml, sl, hl, gn, mn, sn, hn.
  split; [done|]. simpl. unfold str_eqb.
  pose proof (decimal_degrees_sign g1 m1 s1 (py_int_nonneg _ _ Hg1)
                (py_int_nonneg _ _ Hm1) (py_float_sign _ _ Hs1)) as Hlat.
  pose proof (decimal_degrees_sign g2 m2 s2 (py_int_nonneg _ _ Hg2)
                (py_int_nonneg _ _ Hm2) (py_float_sign _ _ Hs2)) as Hlon.
  unfold decimal_degrees in Hlat, Hlon.
  split.
  - destruct (bool_decide (upper hl = u "S")); [|exact Hlat].
    by apply (opp_sign false).
  - destruct (bool_decide (upper hn = u "W")); [|exact Hlon].
    by apply (opp_sign false).
Qed.

End SignFacts.

(** * The defects, at their inputs *)

Section Defects.
Context `{R : PyRuntime} `{!UnicodeRuntime R}.

Lemma converte_todos_total matches resultados :
  Forall (fun m => exists p, converte m = Ok p) matches ->
  exists ps, converte_todos matches resultados = Ok (resultados ++ ps)
             /\ length ps = length matches.
Proof.
  intros Hm. revert resultados.
  induction Hm as [|m matches [p Hp] _ IH]; intros resultados; simpl.
  - exists []. by rewrite app_nil_r.
  - rewrite Hp. simpl. destruct (IH (resultados ++ [p])) as (ps & Hps & Hl).
    exists (p :: ps). rewrite Hps, <- app_assoc. simpl. by rewrite Hl.
Qed.

(** C3 (defect). On a text with a pair whose seconds hold two points the
    parser raises [ValueError]; it returns no list.  [ValueError] is the
    only exception it raises on a string, and it returns a list, with one
    point for each match, whenever the seconds of every match are well
    formed. *)
Theorem parse_raises_on_two_points :
  extrair_coordenadas (PyStr texto_dois_pontos) = Raise ValueError
  /\ (forall s e, extrair_coordenadas (PyStr s) = Raise e -> e = ValueError)
  /\ (forall s,
        (forall gl ml sl hl gn mn sn hn,
           [gl; ml; sl; hl; gn; mn; sn; hn] ∈ Re.findall padrao s ->
           seconds_well_formed sl = true /\ seconds_well_formed sn = true) ->
        exists res,
          extrair_coordenadas (PyStr s) = Ok res
          /\ length res = length (Re.findall padrao s)).
Proof.
  split; [|split].
  - rewrite extrair_coordenadas_latin1 by latin1_text. by vm_compute.
  - apply extrair_coordenadas_raises.
  - intros s Hwf. rewrite extrair_coordenadas_str.
    destruct (converte_todos_total (Re.findall padrao s) []) as (ps & Hps & Hl).
    + apply Forall_forall. intros m Hm.
      destruct (findall_padrao _ _ Hm)
        as [(gl & ml & sl & hl & gn & mn & sn & hn & Hok) _].
      pose proof (g_eq _ _ _ _ _ _ _ _ _ Hok) as Heq. subst m.
      destruct (Hwf _ _ _ _ _ _ _ _ Hm) as [Wl Wn].
      destruct (converte_ok _ _ _ _ _ _ _ _ _ Hok Wl Wn)
        as (? & ? & ? & ? & ? & ? & ? & ? & _ & _ & _ & _ & _ & _ & Hc).
      by eexists.
    + exists ps. by rewrite Hps.
Qed.

(** C4 (defect). In every point returned the latitude has the sign bit
    set for the letter S and clear for N, and the longitude has it set
    for W; but for the letter O the longitude has the sign bit clear, so
    that it is never negative.  For one degree west written with the
    letter O the parser returns the longitude +1.0. *)
Theorem west_letter_O_not_negated :
  (forall s res,
     extrair_coordenadas (PyStr s) = Ok res ->
     Forall2
       (fun groups p =>
          exists gl ml sl hl gn mn sn hn,
            groups = [gl; ml; sl; hl; gn; mn; sn; hn]
            /\ (hl = u "S" -> F.has_sign true (LATITUDE p))
            /\ (hl = u "N" -> F.has_sign false (LATITUDE p))
            /\ (hn = u "W" -> F.has_sign true (LONGITUDE p))
            /\ (hn = u "O" -> F.has_sign false (LONGITUDE p)
                              /\ F.ltb (LONGITUDE p) F.zero = false))
       (Re.findall padrao s) res)
  /\ exists p,
       extrair_coordenadas (PyStr texto_oeste) = Ok [p]
       /\ LONGITUDE_DMS p = u "1º0'0" ++ dquote ++ u "O"
       /\ LONGITUDE p = S754_finite false 4503599627370496 (-52)
       /\ F.ltb (LONGITUDE p) F.zero = false.
Proof.
  split.
  - intros s res. rewrite extrair_coordenadas_str.
    intros (ps & Hps & ->)%converte_todos_spec. simpl.
    eapply Forall2_impl; [exact Hps|]. intros m p Hm.
    apply converte_signs in Hm
      as (gl & ml & sl & hl & gn & mn & sn & hn & -> & Hlat & Hlon).
    exists gl, ml, sl, hl, gn, mn, sn, hn. split; [done|].
    split; [|split; [|split]].
    + intros ->. rewrite upper_hem in Hlat by set_solver.
      by rewrite bool_decide_eq_true_2 in Hlat.
    + intros ->. rewrite upper_hem in Hlat by set_solver.
      by rewrite bool_decide_eq_false_2 in Hlat.
    + intros ->. rewrite upper_hem in Hlon by set_solver.
      by rewrite bool_decide_eq_true_2 in Hlon.
    + intros ->. rewrite upper_hem in Hlon by set_solver.
      rewrite bool_decide_eq_false_2 in Hlon by done.
      split; [exact Hlon|]. apply (sign_compare false _ Hlon).
  - rewrite extrair_coordenadas_latin1 by latin1_text.
    eexists. split; [vm_compute; reflexivity|]. by vm_compute.
Qed.

(** C5 (defect). The hemisphere letters of a match are always the capital
    letters N or S and W or O; the example with its letters in lower case,
    which is the example once upper-cased, has no match and gives the
    empty list, while the example gives one point. *)
Theorem lower_case_letters_not_matched :
  (forall s gl ml sl hl gn mn sn hn,
     [gl; ml; sl; hl; gn; mn; sn; hn] ∈ Re.findall padrao s ->
     (hl = u "N" \/ hl = u "S") /\ (hn = u "W" \/ hn = u "O"))
  /\ upper exemplo_minusculas = exemplo
  /\ extrair_coordenadas (PyStr exemplo_minusculas) = Ok []
  /\ exists p, extrair_coordenadas (PyStr exemplo) = Ok [p].
Proof.
  split; [|split; [|split]].
  - intros s gl ml sl hl gn mn sn hn Hin.
    apply findall_padrao in Hin as [(? & ? & ? & ? & ? & ? & ? & ? & Hok) _].
    pose proof (g_eq _ _ _ _ _ _ _ _ _ Hok) as Heq.
    injection Heq as -> -> -> -> -> -> -> ->.
    split; [exact (g_hem_lat _ _ _ _ _ _ _ _ _ Hok)
           |exact (g_hem_lon _ _ _ _ _ _ _ _ _ Hok)].
  - rewrite upper_ext by latin1_text. by vm_compute.
  - rewrite extrair_coordenadas_latin1 by latin1_text. by vm_compute.
  - rewrite extrair_coordenadas_latin1 by latin1_text.
    eexists. vm_compute. reflexivity.
Qed.

End Defects.


(** * The expander *)

(** ** Dictionaries *)

Section DictFacts.

Lemma dict_lookup_cons (k' : list N) (v : obj) (d : list (list N * obj)) k :
  ((k', v) :: d) !! k = if bool_decide (k' = k) then Some v else d !! k.
Proof. reflexivity. Qed.

Lemma lookup_setitem_eq (d : list (list N * obj)) k v :
  setitem d k v !! k = Some v.
Proof.
  induction d as [|[k' v'] d IH]; simpl.
  - by rewrite dict_lookup_cons, bool_decide_eq_true_2.
  - destruct (bool_decide (k' = k)) eqn:E; rewrite dict_lookup_cons, E; done.
Qed.

Lemma lookup_setitem_ne (d : list (list N * obj)) k k' v :
  k <> k' -> setitem d k v !! k' = d !! k'.
Proof.
  intros Hne. induction d as [|[k0 v0] d IH]; simpl.
  - by rewrite dict_lookup_cons, bool_decide_eq_false_2.
  - destruct (bool_decide (k0 = k)) eqn:E.
    + apply bool_decide_eq_true in E as ->.
      by rewrite !dict_lookup_cons, bool_decide_eq_false_2.
    + rewrite !dict_lookup_cons. by rewrite IH.
Qed.

Lemma setitem_new (d : list (list N * obj)) k v :
  k ∉ d.*1 -> setitem d k v = d ++ [(k, v)].
Proof.
  induction d as [|[k' v'] d IH]; simpl; [done|].
  intros [Hne Hk]%not_elem_of_cons.
  rewrite bool_decide_eq_false_2 by done. by rewrite IH.
Qed.

Lemma dict_lookup_dom (d : list (list N * obj)) k :
  is_Some (d !! k) <-> k ∈ d.*1.
Proof.
  induction d as [|[k' v'] d IH]; simpl.
  - split; [by intros [? ?]|by intros ?%elem_of_nil].
  - rewrite dict_lookup_cons, elem_of_cons.
    destruct (bool_decide (k' = k)) eqn:E.
    + apply bool_decide_eq_true in E as ->. split; [by left|by eexists].
    + apply bool_decide_eq_false in E. rewrite IH. split; [by right|].
      by intros [->|?].
Qed.

(** With distinct keys, an item of the list is what the key gives. *)
Lemma dict_lookup_elem (d : list (list N * obj)) k v :
  NoDup d.*1 -> (k, v) ∈ d -> d !! k = Some v.
Proof.
  induction d as [|[k' v'] d IH]; simpl; [by intros _ ?%elem_of_nil|].
  intros [Hk Hnd]%NoDup_cons [[= -> ->]|Hin]%elem_of_cons.
  - by rewrite dict_lookup_cons, bool_decide_eq_true_2.
  - rewrite dict_lookup_cons, bool_decide_eq_false_2; [by apply IH|].
    intros ->. apply Hk. apply list_elem_of_fmap. by exists (k, v).
Qed.

Lemma to_dict_snoc (row : list (list N * obj)) k v :
  to_dict (row ++ [(k, v)]) = setitem (to_dict row) k v.
Proof. unfold to_dict. by rewrite fold_left_app. Qed.

(** The dictionary of a row with distinct labels has the entries of the
    row, in their order. *)
Lemma to_dict_nodup (row : list (list N * obj)) :
  NoDup row.*1 -> to_dict row = row.
Proof.
  induction row as [|[k v] row IH] using rev_ind; [done|].
  rewrite fmap_app. simpl. intros Hnd.
  apply NoDup_app in Hnd as (Hnd & Hk & _).
  rewrite to_dict_snoc, IH by done. apply setitem_new.
  intros Hin. apply (Hk _ Hin). apply elem_of_cons. by left.
Qed.

Lemma to_dict_dom (row : list (list N * obj)) k :
  is_Some (to_dict row !! k) <-> k ∈ row.*1.
Proof.
  induction row as [|[k' v'] row IH] using rev_ind.
  - split; [by intros [? ?]|by intros ?%elem_of_nil].
  - rewrite to_dict_snoc, fmap_app, elem_of_app. simpl.
    destruct (decide (k' = k)) as [->|Hne].
    + rewrite lookup_setitem_eq. split; [|by eexists]. intros _. right.
      apply elem_of_cons. by left.
    + rewrite lookup_setitem_ne, IH by done. split; [by left|].
      intros [?|[?|?%elem_of_nil]%elem_of_cons]; done.
Qed.

Lemma to_dict_lookup (row : list (list N * obj)) k v :
  NoDup row.*1 -> (k, v) ∈ row -> to_dict row !! k = Some v.
Proof. intros Hnd Hin. rewrite to_dict_nodup by done. by apply dict_lookup_elem. Qed.

Lemma chaves_distintas : NoDup novas_chaves.
Proof. refine (bool_decide_unpack _ _). vm_compute. exact I. Qed.

Ltac chave := let E := fresh in intros E; vm_compute in E; discriminate E.

(** The entries of a new row: the five keys written, and under any other
    key what the source row has. *)
Lemma nova_linha_lookup row i ponto :
  let linha := nova_linha row i ponto in
  linha !! u "PONTO" = Some (PyStr (u "P" ++ format_02d i))
  /\ linha !! u "LATITUDE" = Some (PyFloat (LATITUDE ponto))
  /\ linha !! u "LONGITUDE" = Some (PyFloat (LONGITUDE ponto))
  /\ linha !! u "LATITUDE_DMS" = Some (PyStr (LATITUDE_DMS ponto))
  /\ linha !! u "LONGITUDE_DMS" = Some (PyStr (LONGITUDE_DMS ponto))
  /\ forall k, k ∉ novas_chaves -> linha !! k = to_dict row !! k.
Proof.
  cbn zeta. unfold nova_linha, update, items. cbn [fold_left fst snd].
  repeat split.
  - rewrite !lookup_setitem_ne by chave. by rewrite lookup_setitem_eq.
  - rewrite !lookup_setitem_ne by chave. by rewrite lookup_setitem_eq.
  - rewrite !lookup_setitem_ne by chave. by rewrite lookup_setitem_eq.
  - rewrite !lookup_setitem_ne by chave. by rewrite lookup_setitem_eq.
  - by rewrite lookup_setitem_eq.
  - intros k Hk. unfold novas_chaves in Hk.
    rewrite !not_elem_of_cons in Hk. destruct Hk as (H1 & H2 & H3 & H4 & H5 & _).
    by rewrite !lookup_setitem_ne by done.
Qed.

End DictFacts.

(** ** The loops and the heap *)

Section ExpanderFacts.
Context `{R : PyRuntime} `{P : Pandas}.

Lemma alter_last {A} (f : A -> A) (l : list A) x :
  alter f (length l) (l ++ [x]) = l ++ [f x].
Proof.
  replace (length l) with (length l + 0) by lia.
  by rewrite alter_app_r.
Qed.

(** The body of the loop puts the new dictionary at the end of the heap
    and touches no other object. *)
Lemma expande_ponto_spec row i ponto linhas (h : list (list (list N * obj))) :
  expande_ponto row i ponto linhas h
  = (linhas ++ [length h], h ++ [nova_linha row i ponto]).
Proof.
  unfold expande_ponto, alloc. cbn zeta. by rewrite !alter_last.
Qed.

Lemma expande_pontos_spec row i pontos linhas (h : list (list (list N * obj))) :
  expande_pontos row i pontos linhas h
  = (linhas ++ seq (length h) (length pontos),
     h ++ imap (fun j ponto => nova_linha row (i + j) ponto) pontos).
Proof.
  revert i linhas h.
  induction pontos as [|p pontos IH]; intros i linhas h;
    cbn [expande_pontos].
  - simpl. by rewrite !app_nil_r.
  - rewrite expande_ponto_spec, IH, length_app, <- !app_assoc. simpl.
    rewrite Nat.add_0_r, Nat.add_1_r. do 3 f_equal.
    apply imap_ext. intros j q _. simpl. f_equal. lia.
Qed.

Lemma seq_step {A} (ls : list nat) (h X rest : list A) :
  (ls ++ seq (length h) (length X)) ++ seq (length (h ++ X)) (length rest)
  = ls ++ seq (length h) (length (X ++ rest)).
Proof. by rewrite !length_app, seq_app, app_assoc. Qed.

(** The loop over the rows returns, with the addresses and the heap, the
    dictionaries of each source row in order, when the cell of every row
    parses, and raises otherwise. *)
Lemma expande_linhas_spec rows coluna linhas (h : list (list (list N * obj)))
    linhas' h' :
  expande_linhas rows coluna linhas h = Ok (linhas', h') <->
  exists pontoss,
    Forall2 (fun row pontos => pontos_da_linha coluna row = Ok pontos)
            rows pontoss
    /\ linhas' = linhas ++ seq (length h)
                   (length (concat (zip_with expande_linha rows pontoss)))
    /\ h' = h ++ concat (zip_with expande_linha rows pontoss).
Proof.
  revert linhas h. induction rows as [|row rows IH]; intros linhas h; simpl.
  - split.
    + intros [= <- <-]. exists []. by rewrite !app_nil_r.
    + intros (ps & ->%Forall2_nil_inv_l & -> & ->). by rewrite !app_nil_r.
  - unfold pontos_da_linha at 1.
    destruct (getitem row coluna) as [cell|e] eqn:Hcell; simpl.
    2:{ split; [discriminate|]. intros (ps & Hps & _).
        apply Forall2_cons_inv_l in Hps as (p & ps' & Hp & _).
        unfold pontos_da_linha in Hp. by rewrite Hcell in Hp. }
    destruct (extrair_coordenadas (PyStr (py_str cell))) as [pontos|e] eqn:Hp;
      simpl.
    2:{ split; [discriminate|]. intros (ps & Hps & _).
        apply Forall2_cons_inv_l in Hps as (p & ps' & Hp' & _).
        unfold pontos_da_linha in Hp'. rewrite Hcell in Hp'. simpl in Hp'.
        congruence. }
    rewrite expande_pontos_spec, IH.
    change (imap (fun j ponto => nova_linha row (1 + j) ponto) pontos)
      with (expande_linha row pontos).
    replace (length pontos) with (length (expande_linha row pontos))
      by (unfold expande_linha; by rewrite length_imap).
    split.
    + intros (ps & Hps & -> & ->). exists (pontos :: ps). split.
      * constructor; [|done]. unfold pontos_da_linha. by rewrite Hcell.
      * cbn [zip_with concat]. by rewrite seq_step, <- app_assoc.
    + intros (ps & Hps & -> & ->).
      apply Forall2_cons_inv_l in Hps as (p & ps' & Hp' & Hps & ->).
      unfold pontos_da_linha in Hp'. rewrite Hcell in Hp'. simpl in Hp'.
      assert (p = pontos) as -> by congruence.
      exists ps'. split; [done|]. cbn [zip_with concat].
      by rewrite seq_step, <- app_assoc.
Qed.

(** Reading the heap at the addresses of the new objects gives them. *)
Lemma deref_seq (h new : list (list (list N * obj))) :
  deref (h ++ new) <$> seq (length h) (length new) = new.
Proof.
  apply list_eq. intros i. rewrite list_lookup_fmap.
  destruct (decide (i < length new)) as [Hi|Hi].
  - rewrite lookup_seq_lt by done. simpl. unfold deref.
    rewrite lookup_app_r by lia.
    replace (length h + i - length h) with i by lia.
    destruct (lookup_lt_is_Some_2 new i Hi) as [d Hd]. by rewrite Hd.
  - rewrite lookup_seq_ge by lia. simpl.
    symmetry. apply lookup_ge_None. lia.
Qed.

Lemma expandir_dataframe_spec df coluna (h : list (list (list N * obj)))
    out h' :
  expandir_dataframe df coluna h = Ok (out, h') <->
  exists pontoss,
    Forall2 (fun row pontos => pontos_da_linha coluna row = Ok pontos)
            (iterrows df) pontoss
    /\ out = pd_DataFrame
               (concat (zip_with expande_linha (iterrows df) pontoss))
    /\ h' = h ++ concat (zip_with expande_linha (iterrows df) pontoss).
Proof.
  unfold expandir_dataframe.
  destruct (expande_linhas (iterrows df) coluna [] h) as [[ls hh]|e] eqn:E;
    simpl.
  - apply expande_linhas_spec in E as (pontoss & Hps & -> & ->).
    simpl. rewrite deref_seq. split.
    + intros [= <- <-]. by exists pontoss.
    + intros (ps & Hps' & -> & Hh). 
      assert (ps = pontoss) as ->.
      { clear -Hps Hps'. revert ps Hps'.
        induction Hps as [|row pontos rows pontoss Hrow _ IH]; intros ps Hps'.
        - by apply Forall2_nil_inv_l in Hps'.
        - apply Forall2_cons_inv_l in Hps' as (p & ps' & Hp & Hps' & ->).
          f_equal; [congruence|by apply IH]. }
      by rewrite Hh.
  - split; [discriminate|]. intros (ps & Hps & _ & _).
    assert (Hok : expande_linhas (iterrows df) coluna [] h
                  = Ok ([] ++ seq (length h)
                          (length (concat (zip_with expande_linha
                                             (iterrows df) ps))),
                        h ++ concat (zip_with expande_linha (iterrows df) ps)))
      by (apply expande_linhas_spec; by exists ps).
    congruence.
Qed.

Lemma length_concat_zip rows (pontoss : list (list Ponto)) :
  length rows = length pontoss ->
  length (concat (zip_with expande_linha rows pontoss))
  = sum_list (length <$> pontoss).
Proof.
  revert pontoss. induction rows as [|row rows IH]; intros [|ps pontoss];
    simpl; try done.
  intros [= Hl]. rewrite length_app, IH by done.
  unfold expande_linha. by rewrite length_imap.
Qed.

Lemma fst_zip_take {A B} (l : list A) (k : list B) :
  (zip l k).*1 = take (length k) l.
Proof.
  revert k. induction l as [|a l IH]; intros [|b k]; simpl; try done.
  by rewrite IH.
Qed.

Lemma iterrows_labels df row :
  NoDup (columns df) -> row ∈ iterrows df -> NoDup row.*1.
Proof.
  intros Hnd. unfold iterrows. intros [i Hi]%list_elem_of_lookup.
  rewrite list_lookup_imap in Hi.
  destruct (values df !! i) as [vals|]; [|discriminate]. injection Hi as <-.
  rewrite fst_zip_take. eapply sublist_NoDup; [exact Hnd|apply sublist_take].
Qed.

Lemma getitem_raises row key e : getitem row key = Raise e -> e = KeyError key.
Proof.
  induction row as [|[k v] row IH]; simpl; [by intros [= <-]|].
  by destruct (str_eqb k key).
Qed.

Lemma getitem_zip cols (vals : list obj) coluna :
  coluna ∈ cols -> length vals = length cols ->
  exists cell, getitem (zip cols vals) coluna = Ok cell.
Proof.
  revert vals. induction cols as [|c cols IH]; intros [|v vals] Hc Hl;
    simpl in *; try done.
  - by apply elem_of_nil in Hc.
  - destruct (str_eqb c coluna) eqn:E; [by exists v|].
    apply elem_of_cons in Hc as [->|Hc].
    + unfold str_eqb in E. by rewrite bool_decide_eq_true_2 in E.
    + apply IH; [done|lia].
Qed.

Lemma getitem_absent cols (vals : list obj) coluna :
  coluna ∉ cols -> getitem (zip cols vals) coluna = Raise (KeyError coluna).
Proof.
  revert vals. induction cols as [|c cols IH]; intros [|v vals] Hc; simpl;
    try done.
  apply not_elem_of_cons in Hc as [Hne Hc].
  destruct (str_eqb c coluna) eqn:E; [|by apply IH].
  apply str_eqb_eq in E. congruence.
Qed.

(** With a column of the table, the loop returns, or raises the
    [ValueError] of the parser. *)
Lemma expande_linhas_total rows coluna linhas (h : list (list (list N * obj))) :
  Forall (fun row => exists cell, getitem row coluna = Ok cell) rows ->
  (exists out, expande_linhas rows coluna linhas h = Ok out)
  \/ expande_linhas rows coluna linhas h = Raise ValueError.
Proof.
  intros Hrows. revert linhas h.
  induction Hrows as [|row rows [cell Hcell] _ IH]; intros linhas h; simpl.
  - left. by eexists.
  - rewrite Hcell. simpl.
    destruct (extrair_coordenadas (PyStr (py_str cell))) as [pontos|e] eqn:E;
      simpl.
    + destruct (expande_pontos row 1 pontos linhas h) as [ls hh]. apply IH.
    + right. by apply extrair_coordenadas_raises in E as ->.
Qed.

Lemma iterrows_cells df coluna :
  well_formed df -> coluna ∈ columns df ->
  Forall (fun row => exists cell, getitem row coluna = Ok cell) (iterrows df).
Proof.
  intros Hwf Hc. unfold iterrows. apply Forall_forall.
  intros row [i Hi]%list_elem_of_lookup. rewrite list_lookup_imap in Hi.
  destruct (values df !! i) as [vals|] eqn:Hv; [|discriminate].
  injection Hi as <-. apply getitem_zip; [done|].
  rewrite length_imap.
  apply (proj1 (Forall_forall _ _) Hwf). by apply list_elem_of_lookup_2 in Hv.
Qed.

Lemma expandir_dataframe_total df coluna (h : list (list (list N * obj))) :
  well_formed df -> coluna ∈ columns df ->
  (exists out, expandir_dataframe df coluna h = Ok out)
  \/ expandir_dataframe df coluna h = Raise ValueError.
Proof.
  intros Hwf Hc. unfold expandir_dataframe.
  destruct (expande_linhas_total _ coluna [] h (iterrows_cells df coluna Hwf Hc))
    as [[out ->]| ->]; [left; by eexists|by right].
Qed.

End ExpanderFacts.

(** ** The frame built from the dictionaries *)

Section FrameFacts.
Context `{P : Pandas}.

Lemma zip_fmap_lookup (cols : list (list N)) (f : list N -> obj) k :
  k ∈ cols -> zip cols (f <$> cols) !! k = Some (f k).
Proof.
  induction cols as [|c cols IH]; [by intros ?%elem_of_nil|].
  intros Hk. cbn [fmap list_fmap zip zip_with]. rewrite dict_lookup_cons.
  destruct (bool_decide (c = k)) eqn:E.
  - by apply bool_decide_eq_true in E as ->.
  - apply bool_decide_eq_false in E. apply IH.
    by apply elem_of_cons in Hk as [->|?].
Qed.

Lemma add_keys_elem cols keys k :
  k ∈ add_keys cols keys <-> k ∈ cols \/ k ∈ keys.
Proof.
  unfold add_keys. revert cols.
  induction keys as [|c keys IH]; intros cols; simpl.
  - split; [by left|]. by intros [?|?%elem_of_nil].
  - rewrite IH, elem_of_cons. destruct (str_in c cols) eqn:E.
    + apply str_in_elem in E. split; [tauto|].
      intros [?|[->|?]]; tauto.
    + rewrite elem_of_app, elem_of_cons, elem_of_nil. tauto.
Qed.

Lemma fold_keys_elem (data : list (list (list N * obj))) cols k :
  k ∈ fold_left (fun cols d => add_keys cols d.*1) data cols
  <-> k ∈ cols \/ exists d, d ∈ data /\ k ∈ d.*1.
Proof.
  revert cols. induction data as [|d data IH]; intros cols; simpl.
  - split; [by left|]. intros [?|(d & ?%elem_of_nil & _)]; done.
  - rewrite IH, add_keys_elem. split.
    + intros [[?|?]|(d' & Hd & Hk)]; [by left| |].
      * right. exists d. split; [apply elem_of_cons; by left|done].
      * right. exists d'. split; [apply elem_of_cons; by right|done].
    + intros [?|(d' & [->|Hd]%elem_of_cons & Hk)]; [tauto|tauto|].
      right. by exists d'.
Qed.

(** The columns of the frame are the keys of the dictionaries. *)
Lemma keys_union_elem (data : list (list (list N * obj))) k :
  k ∈ keys_union data <-> exists d, d ∈ data /\ is_Some (d !! k).
Proof.
  unfold keys_union. rewrite fold_keys_elem. split.
  - intros [?%elem_of_nil|(d & Hd & Hk)]; [done|].
    exists d. by rewrite dict_lookup_dom.
  - intros (d & Hd & Hk). right. exists d. by rewrite <- dict_lookup_dom.
Qed.

(** A cell of the frame: what the column holds for the value of the
    dictionary of its row. *)
Lemma cell_at_frame (data : list (list (list N * obj))) n d k v :
  data !! n = Some d -> d !! k = Some v ->
  cell_at (pd_DataFrame data) n k
  = Some (column_value (column_of data k) v).
Proof.
  intros Hn Hk. unfold cell_at, pd_DataFrame. cbn [values columns].
  rewrite list_lookup_fmap, Hn. cbn [fmap option_fmap option_map mbind option_bind].
  rewrite zip_fmap_lookup.
  - by rewrite Hk.
  - apply keys_union_elem. exists d.
    split; [by apply list_elem_of_lookup_2 in Hn|by rewrite Hk].
Qed.

Lemma column_of_elem (data : list (list (list N * obj))) n d k v :
  data !! n = Some d -> d !! k = Some v -> v ∈ column_of data k.
Proof.
  intros Hn Hk. unfold column_of. apply list_elem_of_fmap. exists d.
  split; [by rewrite Hk|by apply list_elem_of_lookup_2 in Hn].
Qed.

(** A dictionary of the list returned is the dictionary built for a
    point of a row. *)
Lemma expande_linha_elem rows (pontoss : list (list Ponto)) linha :
  linha ∈ concat (zip_with expande_linha rows pontoss) ->
  exists row i ponto, linha = nova_linha row i ponto.
Proof.
  revert pontoss. induction rows as [|row rows IH]; intros [|pontos pontoss];
    simpl; try (by intros ?%elem_of_nil).
  intros [Hin|Hin]%elem_of_app; [|by eapply IH].
  apply list_elem_of_lookup in Hin as [j Hj].
  unfold expande_linha in Hj. rewrite list_lookup_imap in Hj.
  destruct (pontos !! j) as [p|]; [|discriminate].
  injection Hj as <-. by eexists _, _, _.
Qed.

(** The columns of the five keys written hold the values written. *)
Lemma new_key_column `{!PandasLaws P} rows (pontoss : list (list Ponto)) k v :
  k ∈ novas_chaves ->
  v ∈ column_of (concat (zip_with expande_linha rows pontoss)) k ->
  column_value (column_of (concat (zip_with expande_linha rows pontoss)) k) v
  = v.
Proof.
  intros Hk Hv. unfold novas_chaves in Hk.
  rewrite !elem_of_cons, elem_of_nil in Hk.
  assert (Hcol : forall (Q : obj -> Prop),
            (forall row i p, Q (default nan (nova_linha row i p !! k))) ->
            Forall Q (column_of (concat (zip_with expande_linha rows pontoss)) k)).
  { intros Q HQ. unfold column_of. apply Forall_fmap, Forall_forall.
    intros d (row & i & p & ->)%expande_linha_elem. apply HQ. }
  destruct Hk as [->|[->|[->|[->|[->|[]]]]]].
  - apply column_of_texts; [|done]. apply Hcol. intros row i p.
    destruct (nova_linha_lookup row i p) as (-> & _). by eexists.
  - apply column_of_floats; [|done]. apply Hcol. intros row i p.
    destruct (nova_linha_lookup row i p) as (_ & -> & _). by eexists.
  - apply column_of_floats; [|done]. apply Hcol. intros row i p.
    destruct (nova_linha_lookup row i p) as (_ & _ & -> & _). by eexists.
  - apply column_of_texts; [|done]. apply Hcol. intros row i p.
    destruct (nova_linha_lookup row i p) as (_ & _ & _ & -> & _). by eexists.
  - apply column_of_texts; [|done]. apply Hcol. intros row i p.
    destruct (nova_linha_lookup row i p) as (_ & _ & _ & _ & -> & _).
    by eexists.
Qed.

End FrameFacts.

(** The instance of the examples has what is used of pandas. *)
#[global] Instance pandas_object_laws : PandasLaws PandasObject.pandas.
Proof.
  split; intros col x Hcol Hx; cbn [column_value PandasObject.pandas];
    unfold PandasObject.infer.
  - assert (E : existsb PandasObject.is_str col = true).
    { apply existsb_exists. exists x. split; [by apply list_elem_of_In|].
      by destruct (proj1 (Forall_forall _ _) Hcol x Hx) as [s ->]. }
    by rewrite E.
  - assert (E : existsb PandasObject.is_str col = false).
    { clear Hx. induction Hcol as [|y col [f ->] _ IH]; [done|]. simpl. exact IH. }
    rewrite E.
    destruct (proj1 (Forall_forall _ _) Hcol x Hx) as [f ->].
    by destruct (_ || _).
Qed.

(** ** The outcome of a call *)

Section ExpanderOutcome.
Context `{R : PyRuntime} `{P : Pandas}.

(** When a row of the table raises [ValueError], so does the call. *)
Lemma expandir_dataframe_row_raises df coluna (h : list (list (list N * obj)))
    row :
  well_formed df -> coluna ∈ columns df -> row ∈ iterrows df ->
  pontos_da_linha coluna row = Raise ValueError ->
  expandir_dataframe df coluna h = Raise ValueError.
Proof.
  intros Hwf Hc Hrow Hraise.
  destruct (expandir_dataframe_total df coluna h Hwf Hc) as [[[out h'] Hout]|Hr];
    [|done].
  apply expandir_dataframe_spec in Hout as (pontoss & Hps & _).
  apply list_elem_of_lookup in Hrow as [i Hi].
  destruct (Forall2_lookup_l _ _ _ _ _ Hps Hi) as (pontos & _ & Hp).
  congruence.
Qed.

Lemma expandir_dataframe_rows df coluna (h : list (list (list N * obj)))
    pontoss :
  Forall2 (fun row pontos => pontos_da_linha coluna row = Ok pontos)
          (iterrows df) pontoss ->
  expandir_dataframe df coluna h
  = Ok (pd_DataFrame (concat (zip_with expande_linha (iterrows df) pontoss)),
        h ++ concat (zip_with expande_linha (iterrows df) pontoss)).
Proof. intros Hps. apply expandir_dataframe_spec. by exists pontoss. Qed.

Lemma length_frame (data : list (list (list N * obj))) :
  length (values (pd_DataFrame data)) = length data.
Proof. unfold pd_DataFrame. cbn [values]. by rewrite length_fmap. Qed.

End ExpanderOutcome.

(** The two tables of the defect, under the pandas of the examples. *)
Section DefectTables.
Context `{R : PyRuntime} `{!UnicodeRuntime R}.

Lemma tabela_defeito_raises (h : list (list (list N * obj))) :
  @expandir_dataframe R PandasObject.pandas tabela_defeito (u "COORDENADAS") h
  = Raise ValueError.
Proof.
  apply (@expandir_dataframe_row_raises R PandasObject.pandas tabela_defeito
           (u "COORDENADAS") h
           (zip (columns tabela_defeito) [PyInt 2; PyStr texto_dois_pontos])).
  - repeat constructor.
  - apply elem_of_cons. right. apply elem_of_cons. by left.
  - apply elem_of_cons. right. apply elem_of_cons. by left.
  - unfold pontos_da_linha.
    change (getitem _ _) with (Ok (PyStr texto_dois_pontos)).
    cbn [mbind result_bind py_str].
    rewrite extrair_coordenadas_latin1 by latin1_text. by vm_compute.
Qed.

Lemma tabela_sem_defeito_rows (h : list (list (list N * obj))) :
  exists out h',
    @expandir_dataframe R PandasObject.pandas tabela_sem_defeito
      (u "COORDENADAS") h = Ok (out, h')
    /\ length (values out) = 1.
Proof.
  assert (Hp : exists p, extrair_coordenadas (PyStr exemplo) = Ok [p]).
  { rewrite extrair_coordenadas_latin1 by latin1_text.
    eexists. vm_compute. reflexivity. }
  destruct Hp as [p Hp].
  eexists _, _. split.
  - apply (expandir_dataframe_rows tabela_sem_defeito _ h [[p]]).
    repeat constructor. unfold pontos_da_linha.
    change (getitem _ _) with (Ok (PyStr exemplo)).
    cbn [mbind result_bind py_str]. exact Hp.
  - by rewrite length_frame.
Qed.

End DefectTables.

(** The label of a point below one hundred is P and two digits. *)
Lemma format_02d_two_digits i :
  i < 100 ->
  format_02d i = [(48 + N.of_nat (i / 10))%N; (48 + N.of_nat (i mod 10))%N].
Proof.
  intros Hi. do 100 (destruct i as [|i]; [vm_compute; reflexivity|]). lia.
Qed.

(** ** The claims on the expander *)

Section ExpanderClaims.
Context `{R : PyRuntime} `{P : Pandas}.

(** C2 (defect).  (1) When the designated cell of every source row
    parses, to the points [pontoss] row by row, the expander returns the
    frame of one row for each point: the rows of the first source row in
    the order of extraction, then those of the second, and so on; a
    source row without points gives no row, and the number of rows is
    the sum of the numbers of points of the source rows.  (2) For a
    table and one of its columns the only other outcome is the
    [ValueError] of the parser.  But (3) that outcome occurs, and no row
    is returned, as soon as the parser raises on the cell of one source
    row, whatever the other rows hold; and (4) such is the table whose
    first row holds the example and whose second row holds a pair with
    two points in its seconds: its first row alone gives one row, the
    table gives none. *)
Theorem expand_order_and_count df coluna (h : list (list (list N * obj))) :
  (forall pontoss,
     NoDup (columns df) ->
     Forall2 (fun row pontos => pontos_da_linha coluna row = Ok pontos)
             (iterrows df) pontoss ->
     expandir_dataframe df coluna h
     = Ok (pd_DataFrame (concat (zip_with expande_linha (iterrows df) pontoss)),
           h ++ concat (zip_with expande_linha (iterrows df) pontoss))
     /\ length (values (pd_DataFrame
                          (concat (zip_with expande_linha (iterrows df)
                                     pontoss))))
        = sum_list (length <$> pontoss)
     /\ Forall2 (fun row pontos =>
                   length (expande_linha row pontos) = length pontos)
                (iterrows df) pontoss
     /\ (forall row, expande_linha row [] = []))
  /\ (well_formed df -> coluna ∈ columns df ->
      (exists pontoss,
         Forall2 (fun row pontos => pontos_da_linha coluna row = Ok pontos)
                 (iterrows df) pontoss)
      \/ expandir_dataframe df coluna h = Raise ValueError)
  /\ (forall row,
        well_formed df -> coluna ∈ columns df -> row ∈ iterrows df ->
        pontos_da_linha coluna row = Raise ValueError ->
        expandir_dataframe df coluna h = Raise ValueError)
  /\ (UnicodeRuntime R ->
      @expandir_dataframe R PandasObject.pandas tabela_defeito
        (u "COORDENADAS") h = Raise ValueError
      /\ exists out h',
           @expandir_dataframe R PandasObject.pandas tabela_sem_defeito
             (u "COORDENADAS") h = Ok (out, h')
           /\ length (values out) = 1).
Proof.
  split; [|split; [|split]].
  - intros pontoss _ Hp. split; [|split; [|split]].
    + by apply expandir_dataframe_rows.
    + rewrite length_frame. apply length_concat_zip.
      by apply Forall2_length in Hp.
    + eapply Forall2_impl; [exact Hp|]. intros row pontos _.
      unfold expande_linha. by rewrite length_imap.
    + done.
  - intros Hwf Hc.
    destruct (expandir_dataframe_total df coluna h Hwf Hc)
      as [[[out h'] Hout]|Hr]; [left|by right].
    apply expandir_dataframe_spec in Hout as (pontoss & Hp & _).
    by exists pontoss.
  - intros row. apply expandir_dataframe_row_raises.
  - intros HU. split; [apply tabela_defeito_raises|].
    apply tabela_sem_defeito_rows.
Qed.

(** C8. Every row returned comes from a source row and one of its
    points, and its label is P followed by the number of the point among
    the points of that source row, counted from 1 for every source row
    and written with at least two digits: P01, P02, ...; for a table
    with distinct column labels, the frame returned holds that label in
    its column PONTO. *)
Theorem point_labels df coluna (h : list (list (list N * obj))) out h' :
  expandir_dataframe df coluna h = Ok (out, h') ->
  exists pontoss,
    Forall2 (fun row pontos => pontos_da_linha coluna row = Ok pontos)
            (iterrows df) pontoss
    /\ out = pd_DataFrame
               (concat (zip_with expande_linha (iterrows df) pontoss))
    /\ (forall row pontos j linha,
          expande_linha row pontos !! j = Some linha ->
          linha !! u "PONTO" = Some (PyStr (u "P" ++ format_02d (S j)))
          /\ (S j < 100 ->
              format_02d (S j)
              = [(48 + N.of_nat (S j / 10))%N; (48 + N.of_nat (S j mod 10))%N]))
    /\ (PandasLaws P -> NoDup (columns df) ->
        forall n linha,
          concat (zip_with expande_linha (iterrows df) pontoss) !! n
          = Some linha ->
          cell_at out n (u "PONTO") = linha !! u "PONTO").
Proof.
  intros (pontoss & Hp & -> & _)%expandir_dataframe_spec.
  exists pontoss. split; [done|]. split; [done|]. split.
  - intros row pontos j linha. unfold expande_linha.
    rewrite list_lookup_imap.
    destruct (pontos !! j) as [p|]; [|discriminate]. intros [= <-].
    split; [apply nova_linha_lookup|apply format_02d_two_digits].
  - intros HL _ n linha Hn.
    assert (Hlinha : linha ∈ concat (zip_with expande_linha (iterrows df)
                                       pontoss))
      by (by apply list_elem_of_lookup_2 in Hn).
    apply expande_linha_elem in Hlinha as (row & i & p & ->).
    destruct (nova_linha_lookup row i p) as (Hk & _). rewrite Hk.
    rewrite (cell_at_frame _ _ _ _ _ Hn Hk). f_equal.
    apply new_key_column; [apply elem_of_cons; by left|].
    by eapply column_of_elem.
Qed.

(** C6, as the code has it.  With a column name that is not among the
    columns, the expander raises [KeyError] at the first row, before any
    row is built, when the table has a row; on a table without rows it
    returns the empty frame and raises nothing. *)
Theorem column_not_found df coluna (h : list (list (list N * obj))) :
  coluna ∉ columns df ->
  (values df <> [] -> expandir_dataframe df coluna h = Raise (KeyError coluna))
  /\ (values df = [] ->
      expandir_dataframe df coluna h
      = Ok ({| columns := []; values := [] |}, h)).
Proof.
  intros Hc. unfold expandir_dataframe, iterrows. split.
  - destruct (values df) as [|vals rest]; [done|]. intros _.
    cbn [imap expande_linhas]. by rewrite getitem_absent.
  - by intros ->.
Qed.

(** C10, as the code has it.  A dictionary built for a row returned
    holds, under every key that is none of the five keys written, what
    the source row holds; its keys are those of the source row and the
    five keys written; and under the five keys it holds the label and
    the four fields of the point, also when the source row has a column
    of that name.  The frame returned holds, for every key of the
    dictionary of a row, what the column pandas builds from the values
    of that key holds for the value of the dictionary: the value itself
    under the five keys written and in every column of texts only or of
    floats only.  Every dictionary is a new object of
    its own: the addresses are distinct and were free before the call,
    and the objects that were in the heap before the call are in it
    unchanged after it. *)
Theorem source_fields_kept df coluna (h : list (list (list N * obj))) out h' :
  NoDup (columns df) ->
  expandir_dataframe df coluna h = Ok (out, h') ->
  exists pontoss,
    Forall2 (fun row pontos => pontos_da_linha coluna row = Ok pontos)
            (iterrows df) pontoss
    /\ out = pd_DataFrame
               (concat (zip_with expande_linha (iterrows df) pontoss))
    /\ Forall2
         (fun row pontos =>
            forall j linha,
              expande_linha row pontos !! j = Some linha ->
              (forall k v, (k, v) ∈ row -> k ∉ novas_chaves ->
                           linha !! k = Some v)
              /\ (forall k, is_Some (linha !! k) <->
                            k ∈ row.*1 \/ k ∈ novas_chaves)
              /\ exists ponto,
                   pontos !! j = Some ponto
                   /\ linha !! u "PONTO" = Some (PyStr (u "P" ++ format_02d (S j)))
                   /\ linha !! u "LATITUDE" = Some (PyFloat (LATITUDE ponto))
                   /\ linha !! u "LONGITUDE" = Some (PyFloat (LONGITUDE ponto))
                   /\ linha !! u "LATITUDE_DMS"
                      = Some (PyStr (LATITUDE_DMS ponto))
                   /\ linha !! u "LONGITUDE_DMS"
                      = Some (PyStr (LONGITUDE_DMS ponto)))
         (iterrows df) pontoss
    /\ (forall k, k ∈ columns out <->
                  exists linha,
                    linha ∈ concat (zip_with expande_linha (iterrows df)
                                      pontoss)
                    /\ is_Some (linha !! k))
    /\ (forall n linha k v,
          concat (zip_with expande_linha (iterrows df) pontoss) !! n
          = Some linha ->
          linha !! k = Some v ->
          cell_at out n k
          = Some (column_value
                    (column_of (concat (zip_with expande_linha (iterrows df)
                                          pontoss)) k) v)
          /\ (PandasLaws P -> k ∈ novas_chaves -> cell_at out n k = Some v)
          /\ (PandasLaws P ->
              Forall (fun y => exists s, y = PyStr s)
                     (column_of (concat (zip_with expande_linha (iterrows df)
                                           pontoss)) k)
              \/ Forall (fun y => exists f, y = PyFloat f)
                        (column_of (concat (zip_with expande_linha
                                              (iterrows df) pontoss)) k) ->
              cell_at out n k = Some v))
    /\ h' = h ++ concat (zip_with expande_linha (iterrows df) pontoss)
    /\ (forall a d, h !! a = Some d -> h' !! a = Some d)
    /\ exists enderecos,
         expande_linhas (iterrows df) coluna [] h = Ok (enderecos, h')
         /\ NoDup enderecos
         /\ (forall a, a ∈ enderecos -> h !! a = None)
         /\ deref h' <$> enderecos
            = concat (zip_with expande_linha (iterrows df) pontoss).
Proof.
  intros Hnd (pontoss & Hp & -> & ->)%expandir_dataframe_spec.
  exists pontoss. split; [done|]. split; [done|].
  split; [|split; [|split; [|split; [|split]]]].
  - apply Forall2_same_length_lookup. split; [by apply Forall2_length in Hp|].
    intros i row pontos Hrow _ j linha.
    assert (Hlab : NoDup row.*1).
    { apply (iterrows_labels df); [done|].
      by apply list_elem_of_lookup_2 in Hrow. }
    unfold expande_linha. rewrite list_lookup_imap.
    destruct (pontos !! j) as [p|] eqn:Hj; [|discriminate]. intros [= <-].
    destruct (nova_linha_lookup row (S j) p) as (H1 & H2 & H3 & H4 & H5 & Hk).
    split; [|split].
    + intros k v Hkv Hnk. rewrite (Hk k Hnk). by apply to_dict_lookup.
    + intros k. destruct (decide (k ∈ novas_chaves)) as [Hin|Hnin].
      * split; [by right|]. intros _. unfold novas_chaves in Hin.
        rewrite !elem_of_cons, elem_of_nil in Hin.
        destruct Hin as [->|[->|[->|[->|[->|[]]]]]]; by eexists.
      * rewrite (Hk k Hnin), to_dict_dom. split; [by left|].
        by intros [?|?].
    + by exists p.
  - intros k. apply keys_union_elem.
  - intros n linha k v Hn Hk. split; [by eapply cell_at_frame|]. split.
    + intros HL Hin. rewrite (cell_at_frame _ _ _ _ _ Hn Hk). f_equal.
      apply new_key_column; [done|]. by eapply column_of_elem.
    + intros HL Hcol. rewrite (cell_at_frame _ _ _ _ _ Hn Hk). f_equal.
      destruct Hcol as [Hcol|Hcol];
        [apply column_of_texts|apply column_of_floats]; try done;
        by eapply column_of_elem.
  - done.
  - intros a d Ha. by apply lookup_app_l_Some.
  - eexists. split; [|split; [|split]].
    + apply expande_linhas_spec. exists pontoss. by rewrite app_nil_l.
    + apply NoDup_seq.
    + intros a [Hlo _]%elem_of_seq. apply lookup_ge_None. lia.
    + apply deref_seq.
Qed.

End ExpanderClaims.

(** * Examples *)

(** The decimal values of the example of the specification are
    -3.064717722222222 and -59.912944805555554. *)
Example exemplo_decimais :
  @extrair_coordenadas Latin1.runtime (PyStr exemplo)
  = Ok [ {| LATITUDE := S754_finite true 6901130795897877 (-51);
            LONGITUDE := S754_finite true 8431997371905284 (-47);
            LATITUDE_DMS := u "3º03'52.9838" ++ dquote ++ u "S";
            LONGITUDE_DMS := u "59º54'46.6013" ++ dquote ++ u "W" |} ].
Proof. by vm_compute. Qed.

(** The example of the specification, inside a sentence, and the example
    followed by a pair with ill-formed seconds. *)
Lemma parse_single_pair_witness :
  UnicodeRuntime Latin1.runtime
  /\ u "Lat/Long: " ++ coordinate_text exemplo_lat ++ u " "
       ++ coordinate_text exemplo_lon ++ u "." 
     = u "Lat/Long: " ++ exemplo ++ u "."
  /\ (exists p,
       @extrair_coordenadas Latin1.runtime
         (PyStr (u "Lat/Long: " ++ exemplo ++ u ".")) = Ok [p]
       /\ LATITUDE p = S754_finite true 6901130795897877 (-51)
       /\ LONGITUDE p = S754_finite true 8431997371905284 (-47))
  /\ @extrair_coordenadas Latin1.runtime (PyStr texto_par_e_defeito)
     = Raise ValueError.
Proof.
  split; [exact latin1_unicode|]. split; [reflexivity|].
  destruct (@parse_single_pair Latin1.runtime latin1_unicode)
    as (HA & HB & _ & _ & _ & _ & _ & _ & HD).
  split; [|exact HD].
  assert (Hlat : @coordinate_ok Latin1.runtime (u "NS") exemplo_lat).
  { repeat split; simpl; try lia; try (by left); try (by right);
      repeat constructor. }
  assert (Hlon : @coordinate_ok Latin1.runtime (u "WO") exemplo_lon).
  { repeat split; simpl; try lia; try (by left); try (by right);
      repeat constructor. }
  assert (Hsep : Forall (fun c => cls_sep c = true) (u " "))
    by repeat constructor.
  assert (Hpre : Forall (fun c => @isdecimal Latin1.runtime c = false)
                        (u "Lat/Long: ")) by repeat constructor.
  assert (Hpost : 39%N ∉ u ".").
  { refine (bool_decide_unpack _ _). vm_compute. exact I. }
  destruct (HB _ _ _ _ _ Hlat Hlon Hsep Hpre Hpost) as (Hf & Wl & Wn).
  destruct (HA _ _ _ _ _ _ _ _ _ Hf Wl Wn)
    as (dl & ml' & nl & kl & dn & mn' & nn & kn & p & _ & _ & _ & _ & _ & _
        & Hp & _).
  exists p. split; [exact Hp|].
  assert (Hv : @extrair_coordenadas Latin1.runtime
                 (PyStr (u "Lat/Long: " ++ exemplo ++ u "."))
               = @extrair_coordenadas Latin1.runtime (PyStr exemplo))
    by (vm_compute; reflexivity).
  change (u "Lat/Long: " ++ coordinate_text exemplo_lat ++ u " "
            ++ coordinate_text exemplo_lon ++ u ".")
    with (u "Lat/Long: " ++ exemplo ++ u ".") in Hp.
  rewrite Hv, exemplo_decimais in Hp. injection Hp as <-. split; reflexivity.
Defined.

(** The example written with the sign [°]. *)
Lemma dms_reconstruction_witness :
  UnicodeRuntime Latin1.runtime
  /\ exists p,
       @extrair_coordenadas Latin1.runtime (PyStr exemplo_grau) = Ok [p]
       /\ LATITUDE_DMS p = u "3º03'52.9838" ++ dquote ++ u "S"
       /\ LONGITUDE_DMS p = u "59º54'46.6013" ++ dquote ++ u "W".
Proof.
  split; [exact latin1_unicode|].
  exact (proj2 (@dms_reconstruction Latin1.runtime latin1_unicode)
               exemplo_grau (or_intror eq_refl)).
Defined.

(** A sentinel in mixed case between white space. *)
Lemma sentinel_inputs_witness :
  UnicodeRuntime Latin1.runtime
  /\ @extrair_coordenadas Latin1.runtime
       (PyStr (u "  " ++ u "Não Consta" ++ [10%N])) = Ok [].
Proof.
  split; [exact latin1_unicode|].
  apply (proj2 (proj2 (@sentinel_inputs Latin1.runtime latin1_unicode))
               (u "NÃO CONSTA")).
  - apply elem_of_cons. by left.
  - unfold Latin1.caseless. repeat constructor.
  - repeat constructor.
  - repeat constructor.
Defined.

(** The defects under the Latin-1 tables. *)
Lemma parse_raises_on_two_points_witness :
  UnicodeRuntime Latin1.runtime
  /\ @extrair_coordenadas Latin1.runtime (PyStr texto_dois_pontos)
     = Raise ValueError.
Proof.
  split; [exact latin1_unicode|].
  exact (proj1 (@parse_raises_on_two_points Latin1.runtime latin1_unicode)).
Defined.

Lemma west_letter_O_not_negated_witness :
  UnicodeRuntime Latin1.runtime
  /\ exists p,
       @extrair_coordenadas Latin1.runtime (PyStr texto_oeste) = Ok [p]
       /\ LONGITUDE_DMS p = u "1º0'0" ++ dquote ++ u "O"
       /\ LONGITUDE p = S754_finite false 4503599627370496 (-52)
       /\ F.ltb (LONGITUDE p) F.zero = false.
Proof.
  split; [exact latin1_unicode|].
  exact (proj2 (@west_letter_O_not_negated Latin1.runtime latin1_unicode)).
Defined.

Lemma lower_case_letters_not_matched_witness :
  UnicodeRuntime Latin1.runtime
  /\ @extrair_coordenadas Latin1.runtime (PyStr exemplo_minusculas) = Ok [].
Proof.
  split; [exact latin1_unicode|].
  exact (proj1 (proj2 (proj2
           (@lower_case_letters_not_matched Latin1.runtime latin1_unicode)))).
Defined.


(** The table of the example of order. *)
Lemma pontos_ordem_ok :
  Forall2 (fun row pontos =>
             @pontos_da_linha Latin1.runtime (u "COORDENADAS") row = Ok pontos)
          (@iterrows PandasObject.pandas tabela_ordem) pontos_ordem.
Proof. repeat constructor. Qed.

Lemma quadro_ordem_ok :
  @expandir_dataframe Latin1.runtime PandasObject.pandas tabela_ordem
    (u "COORDENADAS") heap_exemplo
  = Ok (quadro_ordem, heap_exemplo ++ linhas_ordem).
Proof. by vm_compute. Qed.

(** The table of the example of order gives three rows; the table with
    a cell the parser raises on gives none. *)
Lemma expand_order_and_count_witness :
  NoDup (columns tabela_ordem)
  /\ Forall2 (fun row pontos =>
                @pontos_da_linha Latin1.runtime (u "COORDENADAS") row
                = Ok pontos)
             (@iterrows PandasObject.pandas tabela_ordem) pontos_ordem
  /\ length <$> pontos_ordem = [2; 0; 1]
  /\ @expandir_dataframe Latin1.runtime PandasObject.pandas tabela_ordem
       (u "COORDENADAS") heap_exemplo
     = Ok (quadro_ordem, heap_exemplo ++ linhas_ordem)
  /\ length (values quadro_ordem) = 3
  /\ UnicodeRuntime Latin1.runtime
  /\ @expandir_dataframe Latin1.runtime PandasObject.pandas tabela_defeito
       (u "COORDENADAS") heap_exemplo = Raise ValueError.
Proof.
  assert (Hnd : NoDup (columns tabela_ordem)).
  { refine (bool_decide_unpack _ _). vm_compute. exact I. }
  split; [exact Hnd|]. split; [exact pontos_ordem_ok|]. split; [reflexivity|].
  destruct (@expand_order_and_count Latin1.runtime PandasObject.pandas
              tabela_ordem (u "COORDENADAS") heap_exemplo)
    as (HA & _ & _ & HD).
  destruct (HA pontos_ordem Hnd pontos_ordem_ok) as (Hout & Hlen & _).
  split; [exact Hout|]. split; [exact Hlen|].
  split; [exact latin1_unicode|].
  exact (proj1 (HD latin1_unicode)).
Defined.

(** The example of order of the specification: the source rows and the
    labels of the rows of the frame returned. *)
Example ordem_das_linhas :
  (fun n => (cell_at quadro_ordem n (u "ID"),
             cell_at quadro_ordem n (u "PONTO"))) <$> [0; 1; 2]
  = [ (Some (PyInt 1), Some (PyStr (u "P01")));
      (Some (PyInt 1), Some (PyStr (u "P02")));
      (Some (PyInt 3), Some (PyStr (u "P01"))) ].
Proof. by vm_compute. Qed.

Lemma point_labels_witness :
  @expandir_dataframe Latin1.runtime PandasObject.pandas tabela_ordem
    (u "COORDENADAS") heap_exemplo
  = Ok (quadro_ordem, heap_exemplo ++ linhas_ordem)
  /\ PandasLaws PandasObject.pandas
  /\ NoDup (columns tabela_ordem)
  /\ exists pontoss,
       quadro_ordem
       = @pd_DataFrame PandasObject.pandas
           (concat (zip_with expande_linha
                      (@iterrows PandasObject.pandas tabela_ordem) pontoss))
       /\ forall n linha,
            concat (zip_with expande_linha
                      (@iterrows PandasObject.pandas tabela_ordem) pontoss)
              !! n = Some linha ->
            cell_at quadro_ordem n (u "PONTO") = linha !! u "PONTO".
Proof.
  assert (Hnd : NoDup (columns tabela_ordem)).
  { refine (bool_decide_unpack _ _). vm_compute. exact I. }
  split; [exact quadro_ordem_ok|]. split; [exact pandas_object_laws|].
  split; [exact Hnd|].
  destruct (@point_labels Latin1.runtime PandasObject.pandas tabela_ordem
              (u "COORDENADAS") heap_exemplo quadro_ordem
              (heap_exemplo ++ linhas_ordem) quadro_ordem_ok)
    as (pontoss & _ & Hout & _ & Hcell).
  exists pontoss. split; [exact Hout|]. exact (Hcell pandas_object_laws Hnd).
Defined.

(** A table with a row, and a column name it does not have. *)
Lemma column_not_found_witness :
  (u "LOCAL" ∉ columns tabela_ponto)
  /\ @expandir_dataframe Latin1.runtime PandasObject.pandas tabela_ponto
       (u "LOCAL") heap_exemplo
     = Raise (KeyError (u "LOCAL")).
Proof.
  assert (Hc : u "LOCAL" ∉ columns tabela_ponto).
  { refine (bool_decide_unpack _ _). vm_compute. exact I. }
  split; [exact Hc|].
  apply (proj1 (@column_not_found Latin1.runtime PandasObject.pandas
                  tabela_ponto (u "LOCAL") heap_exemplo Hc)).
  discriminate.
Defined.

Lemma source_fields_kept_witness :
  NoDup (columns tabela_ordem)
  /\ @expandir_dataframe Latin1.runtime PandasObject.pandas tabela_ordem
       (u "COORDENADAS") heap_exemplo
     = Ok (quadro_ordem, heap_exemplo ++ linhas_ordem)
  /\ exists pontoss,
       quadro_ordem
       = @pd_DataFrame PandasObject.pandas
           (concat (zip_with expande_linha
                      (@iterrows PandasObject.pandas tabela_ordem) pontoss))
       /\ forall a d,
            heap_exemplo !! a = Some d ->
            (heap_exemplo ++ linhas_ordem) !! a = Some d.
Proof.
  assert (Hnd : NoDup (columns tabela_ordem)).
  { refine (bool_decide_unpack _ _). vm_compute. exact I. }
  split; [exact Hnd|]. split; [exact quadro_ordem_ok|].
  destruct (@source_fields_kept Latin1.runtime PandasObject.pandas
              tabela_ordem (u "COORDENADAS") heap_exemplo quadro_ordem
              (heap_exemplo ++ linhas_ordem) Hnd quadro_ordem_ok)
    as (pontoss & _ & Hout & _ & _ & _ & _ & Hheap & _).
  exists pontoss. split; [exact Hout|exact Hheap].
Defined.

(** C6, counterexample.  The table without rows has no column LOCAL, and
    the expander returns the empty frame for it: no error is raised. *)
Lemma column_not_found_counterexample :
  (u "LOCAL" ∉ columns tabela_vazia)
  /\ @expandir_dataframe Latin1.runtime PandasObject.pandas tabela_vazia
       (u "LOCAL") heap_exemplo
     = Ok ({| columns := []; values := [] |}, heap_exemplo)
  /\ @expandir_dataframe Latin1.runtime PandasObject.pandas tabela_vazia
       (u "LOCAL") heap_exemplo
     <> Raise (KeyError (u "LOCAL")).
Proof.
  split; [|split].
  - refine (bool_decide_unpack _ _). vm_compute. exact I.
  - reflexivity.
  - discriminate.
Qed.

(** C10, counterexample.  (1) The source row of [tabela_ponto] has the
    value Marco 7 in its column PONTO; the row returned for it has the
    label P01 there, in its dictionary and in the frame, so that not
    every field of the source row is kept.  (2) The source rows of
    [tabela_tipos] hold the [int] 1 and [None] in the column K; the frame
    returned holds the float 1.0 and NaN there, with the pandas of the
    examples: the values are not copied unchanged. *)
Lemma source_fields_kept_counterexample :
  (exists row linha out,
     @iterrows PandasObject.pandas tabela_ponto = [row]
     /\ @expandir_dataframe Latin1.runtime PandasObject.pandas tabela_ponto
          (u "COORDENADAS") [] = Ok (out, [linha])
     /\ (u "PONTO", PyStr (u "Marco 7")) ∈ row
     /\ linha !! u "PONTO" = Some (PyStr (u "P01"))
     /\ cell_at out 0 (u "PONTO") = Some (PyStr (u "P01"))
     /\ ~ fields_preserved row linha)
  /\ (exists row1 row2 out h',
        @iterrows PandasObject.pandas tabela_tipos = [row1; row2]
        /\ @expandir_dataframe Latin1.runtime PandasObject.pandas tabela_tipos
             (u "COORDENADAS") [] = Ok (out, h')
        /\ (u "K", PyInt 1) ∈ row1
        /\ (u "K", PyNone) ∈ row2
        /\ cell_at out 0 (u "K")
           = Some (PyFloat (S754_finite false 4503599627370496 (-52)))
        /\ cell_at out 1 (u "K") = Some (PyFloat S754_nan)).
Proof.
  split.
  - eexists _, _, _. split; [reflexivity|]. split; [vm_compute; reflexivity|].
    assert (Hin : (u "PONTO", PyStr (u "Marco 7"))
                  ∈ zip (columns tabela_ponto)
                        [PyStr (u "Marco 7"); PyStr exemplo]).
    { apply elem_of_cons. by left. }
    split; [exact Hin|]. split; [by vm_compute|]. split; [by vm_compute|].
    intros Hf. specialize (Hf _ _ Hin). vm_compute in Hf. discriminate Hf.
  - eexists _, _, _, _. split; [reflexivity|].
    split; [vm_compute; reflexivity|].
    split; [apply elem_of_cons; by left|].
    split; [apply elem_of_cons; by left|].
    split; by vm_compute.
Qed.
